(** * Satellite image QA: the inspection service and the upload front-end

    A shallow embedding of the three Python sources

    - [satellite_qa_agent/satellite_qa_agent.py]: the pydantic classes
      [IssueAssessment] and [SatelliteAnalysis] and the [SatelliteInspector]
      agent,
    - [satellite_qa_agent/main.py]: the FastAPI application with the
      [/analyze] and [/health] endpoints,
    - [satellite_qa_agent_app/main.py]: the Flask application with the
      [/upload] handler.

    Python dictionaries are finite maps, exceptions are an error monad over
    an explicit world, and every call that leaves the process (the hosted
    model, object storage, the downstream HTTP call, the file system) is
    recorded in an event log, in the order in which the code issues it. *)

From Stdlib Require Import QArith Ascii String.
From stdpp Require Import gmap strings list fin_maps pretty.

Local Open Scope string_scope.
Local Open Scope Z_scope.

#[local] Set Warnings "-register-all,-clear-no-such-hyp".

(** ** Python floats

    A finite [float] is given by its exact value, a rational; [inf],
    [-inf] and [nan] are values of their own.  No float is built by
    arithmetic below: floats are only read, kept and written. *)

Inductive float : Type :=
| FNum (q : Q)
| FInf (negative : bool)
| FNan.

Definition is_finite (f : float) : bool :=
  match f with
  | FNum _ => true
  | FInf _ | FNan => false
  end.

(** ** JSON values, as [json.loads] produces them

    An object is a Python [dict]: a finite map from strings, compared
    without regard to key order.  A numeral without fraction and exponent
    is an [int], of any size; any other numeral is a [float], and
    [json.loads] also reads [NaN], [Infinity] and [-Infinity], and gives
    [inf] for a numeral too large for a float, such as [1e400]. *)

Inductive json : Type :=
| JNull
| JBool (b : bool)
| JInt (z : Z)
| JFloat (f : float)
| JStr (s : string)
| JArr (l : list json)
| JObj (m : gmap string json).

Definition bytes : Type := list Byte.byte.

(** ** Exceptions and the error-and-state monad *)

(** A Python exception, of a class under [Exception], is its class name
    and the text [str(e)]; FastAPI's [HTTPException] carries a status code
    and a detail.  Interrupts and exits, which [except Exception] does not
    catch, are not modelled. *)
Inductive exn : Type :=
| Exception (cls : string) (msg : string)
| HTTPException (status_code : Z) (detail : string).

Inductive result (A : Type) : Type :=
| Ok (a : A)
| Raise (e : exn).
Arguments Ok {A} a.
Arguments Raise {A} e.

Definition M (W A : Type) : Type := W -> result A * W.

Definition ret {W A} (a : A) : M W A := fun w => (Ok a, w).

Definition raise {W A} (e : exn) : M W A := fun w => (Raise e, w).

Definition bind {W A B} (c : M W A) (k : A -> M W B) : M W B :=
  fun w => match c w with
           | (Ok a, w') => k a w'
           | (Raise e, w') => (Raise e, w')
           end.

(** [try: c except Exception as e: h e] *)
Definition try_except {W A} (c : M W A) (h : exn -> M W A) : M W A :=
  fun w => match c w with
           | (Ok a, w') => (Ok a, w')
           | (Raise e, w') => h e w'
           end.

Declare Scope py_scope.
Delimit Scope py_scope with py.
Notation "x <- c ;; k" := (bind c (fun x => k))
  (at level 100, c at next level, right associativity) : py_scope.
Notation "c ;;; k" := (bind c (fun _ => k))
  (at level 100, right associativity) : py_scope.
Local Open Scope py_scope.

(** ** The inspection service *)

Module Inspector.

(** *** [satellite_qa_agent.py]: the output schema *)

Record IssueAssessment : Type := {
  detected : bool;
  confidence : float;
  reason : string
}.

Record SatelliteAnalysis : Type := {
  has_clouds : IssueAssessment;
  has_snow : IssueAssessment;
  has_color_issues : IssueAssessment;
  has_other_issues : IssueAssessment
}.

(** The class declarations themselves, as the data pydantic derives the
    JSON schema from: class name, docstring, and the annotated fields with
    their [Field(..., description=...)]. *)
Inductive field_type : Type :=
| TBool
| TFloat
| TStr
| TModel (cls : string).

Record field_decl : Type := {
  fd_name : string;
  fd_type : field_type;
  fd_description : option string
}.

Record model_decl : Type := {
  md_name : string;
  md_doc : string;
  md_fields : list field_decl
}.

Definition IssueAssessment_decl : model_decl := {|
  md_name := "IssueAssessment";
  md_doc := "Assessment for a specific category of issue.";
  md_fields :=
    [ {| fd_name := "detected"; fd_type := TBool;
         fd_description := Some "Whether this specific issue is present." |};
      {| fd_name := "confidence"; fd_type := TFloat;
         fd_description := Some "Confidence score between 0.0 and 1.0." |};
      {| fd_name := "reason"; fd_type := TStr;
         fd_description :=
           Some "A concise explanation of the visual evidence found." |} ]
|}.

Definition SatelliteAnalysis_decl : model_decl := {|
  md_name := "SatelliteAnalysis";
  md_doc := "The master JSON structure for the satellite image analysis.";
  md_fields :=
    [ {| fd_name := "has_clouds"; fd_type := TModel "IssueAssessment";
         fd_description := None |};
      {| fd_name := "has_snow"; fd_type := TModel "IssueAssessment";
         fd_description := None |};
      {| fd_name := "has_color_issues"; fd_type := TModel "IssueAssessment";
         fd_description := None |};
      {| fd_name := "has_other_issues"; fd_type := TModel "IssueAssessment";
         fd_description := None |} ]
|}.

(** The four category keys and the three fields of a category. *)
Definition category_keys : list string := fd_name <$> md_fields SatelliteAnalysis_decl.
Definition assessment_keys : list string := fd_name <$> md_fields IssueAssessment_decl.

(** pydantic's conversion of an input value to a field type.  The table of
    conversions belongs to pydantic; what the development relies on is only
    that a value already of the field's type is taken as it is.  For a
    [float] field that is every Python float, [inf] and [nan] included (the
    classes set no [allow_inf_nan]).  What becomes of a value of another
    type, such as an [int] given for a [float] (pydantic converts it, and
    the conversion rounds above 2^53), is left to the table. *)
Class Conversion : Type := {
  to_bool : json -> option bool;
  to_float : json -> option float;
  to_str : json -> option string;
  to_bool_exact : forall b, to_bool (JBool b) = Some b;
  to_float_exact : forall f, to_float (JFloat f) = Some f;
  to_str_exact : forall s, to_str (JStr s) = Some s
}.

(** A table without any conversion: only values of the field's own type
    are taken. *)
#[local] Instance strict_conversion : Conversion := {|
  to_bool j := match j with JBool b => Some b | _ => None end;
  to_float j := match j with JFloat f => Some f | _ => None end;
  to_str j := match j with JStr s => Some s | _ => None end;
  to_bool_exact _ := eq_refl;
  to_float_exact _ := eq_refl;
  to_str_exact _ := eq_refl
|}.

Section Validation.
Context {C : Conversion}.

(** [IssueAssessment.model_validate]: the three required fields are
    looked up and converted, other keys are ignored. *)
Definition IssueAssessment_validate (j : json) : option IssueAssessment :=
  match j with
  | JObj m =>
      d ← m !! "detected" ≫= to_bool;
      c ← m !! "confidence" ≫= to_float;
      r ← m !! "reason" ≫= to_str;
      Some {| detected := d; confidence := c; reason := r |}
  | _ => None
  end.

Definition SatelliteAnalysis_validate (j : json) : option SatelliteAnalysis :=
  match j with
  | JObj m =>
      c ← m !! "has_clouds" ≫= IssueAssessment_validate;
      s ← m !! "has_snow" ≫= IssueAssessment_validate;
      k ← m !! "has_color_issues" ≫= IssueAssessment_validate;
      o ← m !! "has_other_issues" ≫= IssueAssessment_validate;
      Some {| has_clouds := c; has_snow := s;
              has_color_issues := k; has_other_issues := o |}
  | _ => None
  end.
End Validation.

(** How a float is written in a JSON response: a non-finite one leaves as
    [null]. *)
Definition float_to_json (f : float) : json :=
  if is_finite f then JFloat f else JNull.

(** Serialization for a JSON response ([model_dump(mode="json")], which is
    what FastAPI applies for a [response_model]): one key per declared
    field. *)
Definition IssueAssessment_dump (a : IssueAssessment) : json :=
  JObj {[ "detected" := JBool (detected a);
          "confidence" := float_to_json (confidence a);
          "reason" := JStr (reason a) ]}.

Definition SatelliteAnalysis_dump (a : SatelliteAnalysis) : json :=
  JObj {[ "has_clouds" := IssueAssessment_dump (has_clouds a);
          "has_snow" := IssueAssessment_dump (has_snow a);
          "has_color_issues" := IssueAssessment_dump (has_color_issues a);
          "has_other_issues" := IssueAssessment_dump (has_other_issues a) ]}.

(** *** [satellite_qa_agent.py]: the agent *)

Inductive fs_entry : Type :=
| File (data : bytes)
| Dir.

(** [Part.from_uri] and [Part.from_data] only build a message part. *)
Inductive part : Type :=
| Part_from_uri (uri : string) (mime_type : string)
| Part_from_data (data : bytes) (mime_type : string).

Inductive content : Type :=
| Text (s : string)
| Image (p : part).

Record safety_setting : Type := {
  category : string;
  threshold : string
}.

(** One call of [GenerativeModel.generate_content]. *)
Record generate_request : Type := {
  model_name : string;
  contents : list content;
  generation_config : gmap string json;
  safety_settings : list safety_setting
}.

Inductive event : Type :=
| EvPrint (line : string)
| EvRead (path : string)
| EvGenerate (req : generate_request)
| EvPopen (cmd : string)
| EvVertexInit (project : string) (location : string)
| EvGenerativeModel (name : string).

(** The world of the service: the local file system and the log of what
    the process has done so far, oldest event first. *)
Record world : Type := {
  fs : gmap string fs_entry;
  log : list event
}.

(** What lies outside the repository: the hosted model (what
    [generate_content(...)] followed by [.text] gives for a request, given
    everything that happened before), [json.loads], and pydantic's
    [model_json_schema]. *)
Record env : Type := {
  gemini : list event -> generate_request -> result string;
  json_loads : string -> result json;
  model_json_schema : model_decl -> json
}.

Record SatelliteInspector : Type := {
  project_id : string;
  location : string;
  model : string;
  system_instruction : string
}.

Definition nl : string := String "010"%char "".

Definition SYSTEM_INSTRUCTION : string :=
  String.concat nl
    [ "";
      "        You are an expert Remote Sensing Analyst AI. ";
      "        Your job is to analyze satellite imagery (optical/RGB) and detect quality issues.";
      "        ";
      "        Definitions for your analysis:";
      "        1. CLOUDS: Look for white, puffy, opaque textures that obscure the ground. Distinguish from smoke or haze if possible.";
      "        2. SNOW: Look for white, smooth textures on terrain, specifically on mountain peaks or covering large flat areas. Distinguish from clouds by looking for ground features (valleys, rivers) cut into the white.";
      "        3. COLOR ISSUES: Look for unnatural color casts (e.g., whole image is purple/green), oversaturation, banding (colored stripes), or severe atmospheric haze that washes out color.";
      "        4. OTHER ISSUES: Look for missing data (black pixels/voids), severe blurriness, stitching artifacts, or digital noise.";
      "        ";
      "        Provide a confidence score (0.0 to 1.0) and specific visual reasoning for every assessment.";
      "        " ].

(** The attributes [SatelliteInspector.__init__] sets, which make the
    object it leaves when it returns; [location] defaults to
    ["us-central1"].  The two calls of the SDK it makes on the way, which
    can raise, are in [SatelliteInspector_new] below. *)
Definition SatelliteInspector_init (project_id : string) (location : string)
  : SatelliteInspector :=
  {| project_id := project_id;
     location := location;
     model := "gemini-2.5-flash";
     system_instruction := SYSTEM_INSTRUCTION |}.

Definition str (e : exn) : string :=
  match e with
  | Exception _ msg => msg
  | HTTPException code detail => pretty code ++ ": " ++ detail
  end.

Definition emit (ev : event) : M world unit :=
  fun w => (Ok tt, {| fs := fs w; log := log w ++ [ev] |}).

Definition print (line : string) : M world unit := emit (EvPrint line).

Definition os_path_exists (path : string) : M world bool :=
  fun w => (Ok (bool_decide (is_Some (fs w !! path))), w).

(** [with open(path, "rb") as f: f.read()] *)
Definition open_read (path : string) : M world bytes :=
  fun w =>
    match fs w !! path with
    | Some (File data) => (Ok data, {| fs := fs w; log := log w ++ [EvRead path] |})
    | Some Dir =>
        (Raise (Exception "IsADirectoryError"
                  ("[Errno 21] Is a directory: '" ++ path ++ "'")), w)
    | None =>
        (Raise (Exception "FileNotFoundError"
                  ("[Errno 2] No such file or directory: '" ++ path ++ "'")), w)
    end.

Section Agent.
Context (E : env).

Definition generate_content (req : generate_request) : M world string :=
  fun w =>
    let w' := {| fs := fs w; log := log w ++ [EvGenerate req] |} in
    (gemini E (log w) req, w').

(** The arguments [_generate] passes to [generate_content]. *)
Definition generation_request (self : SatelliteInspector) (image_part : part)
  : generate_request :=
  let generation_config : gmap string json :=
    {[ "response_mime_type" := JStr "application/json";
       "response_schema" := model_json_schema E SatelliteAnalysis_decl ]} in
  {| model_name := model self;
     contents := [ Text (system_instruction self);
                   Image image_part;
                   Text "Analyze this satellite image for issues." ];
     generation_config := generation_config;
     safety_settings :=
       [ {| category := "HARM_CATEGORY_DANGEROUS_CONTENT";
            threshold := "BLOCK_ONLY_HIGH" |} ] |}.

Definition _generate (self : SatelliteInspector) (image_part : part)
  : M world string :=
  generate_content (generation_request self image_part).

Definition analyze_from_uri (self : SatelliteInspector)
    (gcs_uri : string) (mime_type : string) : M world string :=
  let image_part := Part_from_uri gcs_uri mime_type in
  _generate self image_part.

Definition analyze_image (self : SatelliteInspector) (image_path : string)
  : M world string :=
  present <- os_path_exists image_path ;;
  if negb present then
    raise (Exception "FileNotFoundError" ("Image not found at " ++ image_path))
  else
    image_bytes <- open_read image_path ;;
    let image_part := Part_from_data image_bytes "image/jpeg" in
    _generate self image_part.
End Agent.

(** *** [main.py]: the FastAPI application *)

Record AnalysisRequest : Type := { gcs_uri : string }.

Inductive http_body : Type :=
| BJson (j : json)
| BText (s : string).

Record http_response : Type := {
  status : Z;
  body : http_body
}.

(** The three routes the decorators declare.  A request that reaches
    [POST /analyze] has had its body read as an [AnalysisRequest]. *)
Inductive route : Type :=
| GET_root
| POST_analyze (request : AnalysisRequest)
| GET_health.

(** Whatever else a request carries; no handler looks at it. *)
Record raw_request : Type := {
  query : string;
  headers : list (string * string);
  raw_body : bytes
}.

Section App.
Context (E : env) {C : Conversion}.

(** The module-level [agent]. *)
Context (agent : SatelliteInspector).

Definition analyze_endpoint (request : AnalysisRequest) : M world json :=
  try_except
    (print ("Received request for: " ++ gcs_uri request) ;;;
     result_json_str <- analyze_from_uri E agent (gcs_uri request) "image/jpeg" ;;
     result_data <- (fun w => (json_loads E result_json_str, w)) ;;
     ret result_data)
    (fun e =>
       print ("Error processing request: " ++ str e) ;;;
       raise (HTTPException 500 (str e))).

Definition health_check : M world json :=
  ret (JObj {[ "status" := JStr "ok" ]}).

Definition read_root : M world json :=
  ret (JObj {[ "message" := JStr "Satellite Inspector Tool is running.";
               "documentation" := JStr "/docs";
               "openapi_schema" := JStr "/openapi.json" ]}).

(** What FastAPI does around a path operation: an [HTTPException]
    becomes a response with its status code and [{"detail": ...}]; any
    other exception becomes the plain 500 of the server; a returned value
    goes through the route's [response_model], if it has one, and a value
    that does not validate is a 500 as well. *)
Definition respond (response_model : option (json -> option json))
    (r : result json) : http_response :=
  match r with
  | Ok v =>
      match response_model with
      | None => {| status := 200; body := BJson v |}
      | Some validate_and_dump =>
          match validate_and_dump v with
          | Some out => {| status := 200; body := BJson out |}
          | None => {| status := 500; body := BText "Internal Server Error" |}
          end
      end
  | Raise (HTTPException code detail) =>
      {| status := code; body := BJson (JObj {[ "detail" := JStr detail ]}) |}
  | Raise (Exception _ _) =>
      {| status := 500; body := BText "Internal Server Error" |}
  end.

Definition serve (rt : route) (raw : raw_request) (w : world)
  : http_response * world :=
  match rt with
  | GET_root =>
      let (r, w') := read_root w in (respond None r, w')
  | POST_analyze request =>
      let (r, w') := analyze_endpoint request w in
      (respond (Some (fun v => SatelliteAnalysis_dump <$> SatelliteAnalysis_validate v)) r, w')
  | GET_health =>
      let (r, w') := health_check w in (respond None r, w')
  end.
End App.

(** *** The two entry points of the agent, and what a request must carry *)

Inductive entry_point : Type :=
| FromUri (gcs_uri : string) (mime_type : string)
| FromImage (image_path : string).

Definition run_entry (E : env) (self : SatelliteInspector) (ep : entry_point)
  : M world string :=
  match ep with
  | FromUri gcs_uri mime_type => analyze_from_uri E self gcs_uri mime_type
  | FromImage image_path => analyze_image E self image_path
  end.

(** The request opens with the fixed instruction and asks for JSON output
    under the schema of [SatelliteAnalysis]. *)
Definition under_policy (E : env) (req : generate_request) : Prop :=
  contents req !! 0%nat = Some (Text SYSTEM_INSTRUCTION) /\
  generation_config req !! "response_mime_type" = Some (JStr "application/json") /\
  generation_config req !! "response_schema"
    = Some (model_json_schema E SatelliteAnalysis_decl).

Definition is_generate (ev : event) : bool :=
  match ev with EvGenerate _ => true | _ => false end.

(** *** The analyze endpoint, outcome by outcome *)

(** What the log holds when the endpoint calls the model, the request it
    sends, and the answer of the model to it. *)
Definition analyze_history (request : AnalysisRequest) (w : world) : list event :=
  (log w ++ [EvPrint ("Received request for: " ++ gcs_uri request)])%list.

Definition analyze_request (E : env) (agent : SatelliteInspector)
    (request : AnalysisRequest) : generate_request :=
  generation_request E agent (Part_from_uri (gcs_uri request) "image/jpeg").

Definition model_reply (E : env) (agent : SatelliteInspector)
    (request : AnalysisRequest) (w : world) : result string :=
  gemini E (analyze_history request w) (analyze_request E agent request).

(** The world after the call of the model, and after the [except] branch. *)
Definition world_called (E : env) (agent : SatelliteInspector)
    (request : AnalysisRequest) (w : world) : world :=
  {| fs := fs w;
     log := (analyze_history request w
               ++ [EvGenerate (analyze_request E agent request)])%list |}.

Definition world_failed (E : env) (agent : SatelliteInspector)
    (request : AnalysisRequest) (w : world) (e : exn) : world :=
  {| fs := fs w;
     log := (log (world_called E agent request w)
               ++ [EvPrint ("Error processing request: " ++ str e)])%list |}.

Definition error_500 (e : exn) : http_response :=
  {| status := 500; body := BJson (JObj {[ "detail" := JStr (str e) ]}) |}.

Definition ok_200 (a : SatelliteAnalysis) : http_response :=
  {| status := 200; body := BJson (SatelliteAnalysis_dump a) |}.

(** *** The shape of a verdict *)

(** [j] is an object with exactly the three fields of an assessment: a
    boolean, a finite number or [null], and a string. *)
Definition assessment_shaped (j : json) : Prop :=
  exists m b c s,
    j = JObj m /\ dom m = list_to_set assessment_keys /\
    m !! "detected" = Some (JBool b) /\
    m !! "confidence" = Some c /\
    (c = JNull \/ exists q, c = JFloat (FNum q)) /\
    m !! "reason" = Some (JStr s).

(** [j] is an object with exactly the four category keys, each of them
    assessment-shaped. *)
Definition analysis_shaped (j : json) : Prop :=
  exists m,
    j = JObj m /\ dom m = list_to_set category_keys /\
    forall k, k ∈ category_keys ->
      exists v, m !! k = Some v /\ assessment_shaped v.

(** What the specification asks of an assessment beyond its types. *)
Definition score_in_range (a : IssueAssessment) : Prop :=
  match confidence a with
  | FNum q => (0 <= q)%Q /\ (q <= 1)%Q
  | FInf _ | FNan => False
  end.

Definition has_rationale (a : IssueAssessment) : Prop := reason a <> "".

(** The decoded reply that carries [a]: what [json.loads] gives for a
    text with the three fields of each category, the float as it is. *)
Definition assessment_value (a : IssueAssessment) : json :=
  JObj {[ "detected" := JBool (detected a);
          "confidence" := JFloat (confidence a);
          "reason" := JStr (reason a) ]}.

Definition analysis_value (a : SatelliteAnalysis) : json :=
  JObj {[ "has_clouds" := assessment_value (has_clouds a);
          "has_snow" := assessment_value (has_snow a);
          "has_color_issues" := assessment_value (has_color_issues a);
          "has_other_issues" := assessment_value (has_other_issues a) ]}.

(** All four scores are finite floats. *)
Definition finite_scores (a : SatelliteAnalysis) : Prop :=
  is_finite (confidence (has_clouds a)) = true /\
  is_finite (confidence (has_snow a)) = true /\
  is_finite (confidence (has_color_issues a)) = true /\
  is_finite (confidence (has_other_issues a)) = true.




(** *** Concrete surroundings, for running the service *)

Definition clear (why : string) : IssueAssessment :=
  {| detected := false; confidence := FNum (19 # 20); reason := why |}.

Definition good_verdict : SatelliteAnalysis := {|
  has_clouds := {| detected := true; confidence := FNum (9 # 10);
                   reason := "white opaque texture over the coast" |};
  has_snow := clear "no white cover on the terrain";
  has_color_issues := clear "natural colours";
  has_other_issues := clear "no voids or seams"
|}.

(** A verdict the model may send: a score above one, and no rationale. *)
Definition odd_verdict : SatelliteAnalysis := {|
  has_clouds := {| detected := true; confidence := FNum (3 # 2); reason := "" |};
  has_snow := clear "no white cover on the terrain";
  has_color_issues := clear "natural colours";
  has_other_issues := clear "no voids or seams"
|}.

(** Another: the text of the model has [NaN] where a score belongs. *)
Definition nan_verdict : SatelliteAnalysis := {|
  has_clouds := {| detected := true; confidence := FNan;
                   reason := "white opaque texture over the coast" |};
  has_snow := clear "no white cover on the terrain";
  has_color_issues := clear "natural colours";
  has_other_issues := clear "no voids or seams"
|}.

(** The model left one category out. *)
Definition partial_verdict : json :=
  JObj {[ "has_clouds" := assessment_value (has_clouds good_verdict) ]}.


Definition schema_outline (d : model_decl) : json :=
  JObj {[ "title" := JStr (md_name d);
          "description" := JStr (md_doc d);
          "type" := JStr "object";
          "required" := JArr (JStr <$> (fd_name <$> md_fields d)) ]}.

Definition env_replying (reply : result string) : env := {|
  gemini _ _ := reply;
  json_loads s :=
    if String.eqb s "GOOD" then Ok (analysis_value good_verdict)
    else if String.eqb s "ODD" then Ok (analysis_value odd_verdict)
    else if String.eqb s "NAN" then Ok (analysis_value nan_verdict)
    else if String.eqb s "PARTIAL" then Ok partial_verdict
    else Raise (Exception "JSONDecodeError"
                  "Expecting value: line 1 column 1 (char 0)");
  model_json_schema := schema_outline
|}.

Definition agent0 : SatelliteInspector :=
  SatelliteInspector_init "demo-project" "us-central1".

Definition request0 : AnalysisRequest := {| gcs_uri := "gs://bucket/image.jpg" |}.

Definition raw0 : raw_request := {| query := ""; headers := []; raw_body := [] |}.

Definition w0 : world := {| fs := ∅; log := [] |}.

Definition w1 : world :=
  {| fs := {[ "tile.jpg" := File []; "tiles" := Dir ]}; log := [] |}.

(** *** [main.py]: the request body *)

Section RequestBody.
Context {C : Conversion}.

(** [class AnalysisRequest(BaseModel): gcs_uri: str], as FastAPI reads the
    body of [POST /analyze] into it. *)
Definition AnalysisRequest_validate (j : json) : option AnalysisRequest :=
  match j with
  | JObj m => u ← m !! "gcs_uri" ≫= to_str; Some {| gcs_uri := u |}
  | _ => None
  end.
End RequestBody.

(** *** Start-up: the project id, the module-level agent, the script *)

(** Where the process starts: its environment variables, what
    [os.popen(cmd).read()] gives, and what the two calls of the SDK that
    [__init__] makes do: [None] when the call returns, the exception when
    it raises (no credentials, a region that does not exist, ...). *)
Record host : Type := {
  environ : gmap string string;
  popen_read : string -> string;
  vertexai_init : string -> string -> option exn;
  GenerativeModel : string -> option exn
}.

(** [str.strip()], on ASCII text: the white space of Python is the
    characters 9 to 13 and 28 to 32. *)
Definition is_space (c : ascii) : bool :=
  let n := nat_of_ascii c in
  ((9 <=? n)%nat && (n <=? 13)%nat) || ((28 <=? n)%nat && (n <=? 32)%nat).

Fixpoint lstrip (s : string) : string :=
  match s with
  | EmptyString => ""
  | String c rest => if is_space c then lstrip rest else s
  end.

Fixpoint rstrip (s : string) : string :=
  match s with
  | EmptyString => ""
  | String c rest =>
      match rstrip rest with
      | EmptyString => if is_space c then "" else String c ""
      | kept => String c kept
      end
  end.

Definition strip (s : string) : string := rstrip (lstrip s).

(** [os.popen(cmd).read()]: the command is run, and logged. *)
Definition os_popen_read (H : host) (cmd : string) : M world string :=
  emit (EvPopen cmd) ;;; ret (popen_read H cmd).

(** [PROJECT_ID = os.environ.get("GOOGLE_CLOUD_PROJECT")], and the
    fallback under [if not PROJECT_ID:], which prints [notice] and asks
    [gcloud]. *)
Definition resolve_project_id (H : host) (notice : string) : M world string :=
  match environ H !! "GOOGLE_CLOUD_PROJECT" with
  | Some (String c rest) => ret (String c rest)
  | Some EmptyString | None =>
      print notice ;;;
      out <- os_popen_read H "gcloud config get-value project" ;;
      ret (strip out)
  end.

(** A call of the SDK: it is logged, and returns or raises. *)
Definition sdk_call (ev : event) (outcome : option exn) : M world unit :=
  emit ev ;;;
  match outcome with
  | None => ret tt
  | Some e => raise e
  end.

(** [SatelliteInspector(project_id, location)]: [__init__] as it runs.
    [vertexai.init] and then [GenerativeModel("gemini-2.5-flash")] are
    called, and either may raise; when both return, the object is the one
    of [SatelliteInspector_init]. *)
Definition SatelliteInspector_new (H : host) (project_id : string)
    (location : string) : M world SatelliteInspector :=
  sdk_call (EvVertexInit project_id location)
    (vertexai_init H project_id location) ;;;
  sdk_call (EvGenerativeModel "gemini-2.5-flash")
    (GenerativeModel H "gemini-2.5-flash") ;;;
  ret (SatelliteInspector_init project_id location).

(** [main.py], lines 11 to 16: the module-level [agent]. *)
Definition startup (H : host) : M world SatelliteInspector :=
  PROJECT_ID <- resolve_project_id H
    "GOOGLE_CLOUD_PROJECT not set, attempting to find from gcloud config" ;;
  SatelliteInspector_new H PROJECT_ID "us-central1".

Definition IMAGE_PATH : string := "test_satellite.jpg".

(** [except FileNotFoundError]; a class is known by its name. *)
Definition is_FileNotFoundError (e : exn) : bool :=
  match e with
  | Exception cls _ => String.eqb cls "FileNotFoundError"
  | HTTPException _ _ => false
  end.

(** [satellite_qa_agent.py] run as a script: the [try] block, the two
    [except] clauses, and the whole. *)
Definition script_try (E : env) (H : host) (PROJECT_ID : string)
  : M world unit :=
  agent <- SatelliteInspector_new H PROJECT_ID "us-central1" ;;
  print ("Analyzing " ++ IMAGE_PATH ++ "...") ;;;
  present <- os_path_exists IMAGE_PATH ;;
  if present then
    result_json <- analyze_image E agent IMAGE_PATH ;;
    print (nl ++ "Analysis Result:") ;;;
    print result_json
  else
    print ("Please place a test image at '" ++ IMAGE_PATH
             ++ "' to run this script.").

Definition script_except (e : exn) : M world unit :=
  if is_FileNotFoundError e then print ("Error: " ++ str e)
  else print ("An unexpected error occurred: " ++ str e).

Definition main_script (E : env) (H : host) : M world unit :=
  PROJECT_ID <- resolve_project_id H
    "GOOGLE_CLOUD_PROJECT env var not set, attempting to find from gcloud config..." ;;
  try_except (script_try E H PROJECT_ID) script_except.

(** Text with no white space at either end. *)
Definition starts_clean (s : string) : bool :=
  match s with
  | EmptyString => true
  | String c _ => negb (is_space c)
  end.

Fixpoint ends_clean (s : string) : bool :=
  match s with
  | EmptyString => true
  | String c EmptyString => negb (is_space c)
  | String _ rest => ends_clean rest
  end.

(** *** A verdict that does not validate *)

Definition assessment_incomplete (v : json) : Prop :=
  (forall m, v <> JObj m) \/
  exists m f, v = JObj m /\ f ∈ assessment_keys /\ m !! f = None.

Definition analysis_incomplete (d : json) : Prop :=
  (forall m, d <> JObj m) \/
  exists m k, d = JObj m /\ k ∈ category_keys /\
    (m !! k = None \/ exists v, m !! k = Some v /\ assessment_incomplete v).

(** *** Hosts, for running the start-up *)

Definition host_cloud_run : host :=
  {| environ := {[ "GOOGLE_CLOUD_PROJECT" := "demo-project" ]};
     popen_read _ := "";
     vertexai_init _ _ := None;
     GenerativeModel _ := None |}.

Definition host_laptop : host :=
  {| environ := {[ "GOOGLE_CLOUD_PROJECT" := "" ]};
     popen_read _ := "my-project" ++ nl;
     vertexai_init _ _ := None;
     GenerativeModel _ := None |}.

(** No credentials: [vertexai.init] raises. *)
Definition no_credentials : exn :=
  Exception "DefaultCredentialsError"
    "Your default credentials were not found.".

Definition host_no_credentials : host :=
  {| environ := ∅;
     popen_read _ := "";
     vertexai_init _ _ := Some no_credentials;
     GenerativeModel _ := None |}.

Definition w2 : world :=
  {| fs := {[ "test_satellite.jpg" := File [] ]}; log := [] |}.

End Inspector.

(** ** The upload front-end *)

Module UploadApp.

Definition CLOUD_RUN_URL : string :=
  "https://satellite-inspector-tool-90805393985.us-central1.run.app/analyze".

Definition GCS_BUCKET_NAME : string := "your-unique-bucket-name".

(** werkzeug's [FileStorage], one per part of the multipart form. *)
Record FileStorage : Type := {
  filename : string;
  content_type : string;
  stream : bytes
}.

(** The [requests.Response] of the downstream call. *)
Record response : Type := {
  status_code : Z;
  text : string
}.

Inductive event : Type :=
| EvUuid4 (u : string)
| EvUploadFromFile (blob_name : string) (data : bytes) (content_type : string)
| EvMakePublic (blob_name : string)
| EvPost (url : string) (json_body : json).

Record world : Type := { log : list event }.

(** What lies outside the repository, each answer a function of everything
    that happened before: the random UUID, the two calls on the blob (an
    exception or nothing), the HTTP POST (an exception of the transport or a
    response, whatever its status), the blob's [public_url], and the [json]
    module. *)
Record env : Type := {
  uuid4 : list event -> string;
  upload_from_file : list event -> string -> bytes -> string -> option exn;
  make_public : list event -> string -> option exn;
  requests_post : list event -> string -> json -> result response;
  public_url : string -> string -> string;
  json_loads : string -> result json;
  json_dumps : json -> string
}.

(** One entry of [results]. *)
Record result_entry : Type := {
  image_url : string;
  analysis : string
}.

(** The page [HTML_TEMPLATE] renders to, without its static markup: whether
    the [{% if results %}] block is there, and the [<img src>] and [<pre>]
    texts of the [<div class=result>] elements, in document order. *)
Record page : Type := {
  results_heading : bool;
  result_divs : list (string * string)
}.

Inductive flask_body : Type :=
| Plain (s : string)
| Html (p : page).

Record flask_response : Type := {
  status : Z;
  body : flask_body
}.

(** Jinja's autoescaping of [{{ ... }}], on in [render_template_string]. *)
Definition escape_char (c : ascii) : string :=
  if Ascii.eqb c "&" then "&amp;"
  else if Ascii.eqb c "<" then "&lt;"
  else if Ascii.eqb c ">" then "&gt;"
  else if Ascii.eqb c "'" then "&#39;"
  else if Ascii.eqb c "034" then "&#34;"
  else String c "".

Fixpoint escape (s : string) : string :=
  match s with
  | EmptyString => ""
  | String c rest => escape_char c ++ escape rest
  end.

Definition render_div (r : result_entry) : string * string :=
  (escape (image_url r), escape (analysis r)).

(** [render_template_string(HTML_TEMPLATE, results=...)]; [None] is the
    call without [results]. *)
Definition render_template_string (results : option (list result_entry)) : page :=
  match results with
  | Some (r :: rs) =>
      {| results_heading := true; result_divs := render_div <$> (r :: rs) |}
  | _ => {| results_heading := false; result_divs := [] |}
  end.

Definition emit (ev : event) : M world unit :=
  fun w => (Ok tt, {| log := log w ++ [ev] |}).

Definition ok (status : Z) (body : flask_body) : flask_response :=
  {| status := status; body := body |}.

Section Handlers.
Context (E : env).

Definition call_uuid4 : M world string :=
  fun w => let u := uuid4 E (log w) in
           (Ok u, {| log := log w ++ [EvUuid4 u] |}).

Definition blob_upload_from_file (blob_name : string) (data : bytes)
    (ctype : string) : M world unit :=
  fun w =>
    let w' := {| log := log w ++ [EvUploadFromFile blob_name data ctype] |} in
    match upload_from_file E (log w) blob_name data ctype with
    | None => (Ok tt, w')
    | Some e => (Raise e, w')
    end.

Definition blob_make_public (blob_name : string) : M world unit :=
  fun w =>
    let w' := {| log := log w ++ [EvMakePublic blob_name] |} in
    match make_public E (log w) blob_name with
    | None => (Ok tt, w')
    | Some e => (Raise e, w')
    end.

Definition post (url : string) (json_body : json) : M world response :=
  fun w =>
    (requests_post E (log w) url json_body,
     {| log := log w ++ [EvPost url json_body] |}).

(** [response.json()] *)
Definition response_json (r : response) : M world json :=
  fun w => (json_loads E (text r), w).

(** [index] *)
Definition index : M world flask_response :=
  ret (ok 200 (Html (render_template_string None))).

(** [not uploaded_files or uploaded_files[0].filename == ''] *)
Definition no_files_selected (uploaded_files : list FileStorage) : bool :=
  match uploaded_files with
  | [] => true
  | file :: _ => String.eqb (filename file) ""
  end.

(** The body of the [for] loop: the entry it appends to [results]. *)
Definition upload_one (file : FileStorage) : M world result_entry :=
  u <- call_uuid4 ;;
  let filename := "uploads/" ++ u ++ "-" ++ filename file in
  blob_upload_from_file filename (stream file) (content_type file) ;;;
  blob_make_public filename ;;;
  let gcs_uri := "gs://" ++ GCS_BUCKET_NAME ++ "/" ++ filename in
  response <- post CLOUD_RUN_URL (JObj {[ "gcs_uri" := JStr gcs_uri ]}) ;;
  parsed <- response_json response ;;
  ret {| image_url := public_url E GCS_BUCKET_NAME filename;
         analysis := json_dumps E parsed |}.

Fixpoint upload_loop (files : list FileStorage) (results : list result_entry)
  : M world (list result_entry) :=
  match files with
  | [] => ret results
  | file :: rest =>
      r <- upload_one file ;;
      upload_loop rest (results ++ [r])
  end.

(** [upload], with [uploaded_files = request.files.getlist("files")]. *)
Definition upload (uploaded_files : list FileStorage) : M world flask_response :=
  if no_files_selected uploaded_files then
    ret (ok 400 (Plain "No files selected"))
  else
    results <- upload_loop uploaded_files [] ;;
    ret (ok 200 (Html (render_template_string (Some results)))).

(** Flask around the view, taken from the point where [getlist] has
    returned its list: an exception that leaves the view is a 500, which
    Flask answers with the server's error page, stood for here by its
    title. *)
Definition upload_route (uploaded_files : list FileStorage) (w : world)
  : flask_response * world :=
  match upload uploaded_files w with
  | (Ok r, w') => (r, w')
  | (Raise _, w') => (ok 500 (Plain "Internal Server Error"), w')
  end.
End Handlers.

(** *** What one pass of the loop leaves behind *)

Definition blob_name_of (u : string) (file : FileStorage) : string :=
  "uploads/" ++ u ++ "-" ++ filename file.

Definition gcs_uri_of (u : string) (file : FileStorage) : string :=
  "gs://" ++ GCS_BUCKET_NAME ++ "/" ++ blob_name_of u file.

(** The four outside calls of a pass that runs to its end, in order. *)
Definition file_events (u : string) (file : FileStorage) : list event :=
  [ EvUuid4 u;
    EvUploadFromFile (blob_name_of u file) (stream file) (content_type file);
    EvMakePublic (blob_name_of u file);
    EvPost CLOUD_RUN_URL (JObj {[ "gcs_uri" := JStr (gcs_uri_of u file) ]}) ].

(** The entry of a file stored under UUID [u] whose analysis came back as
    the JSON value [j]. *)
Definition entry_of (E : env) (file : FileStorage) (uj : string * json)
  : result_entry :=
  {| image_url := public_url E GCS_BUCKET_NAME (blob_name_of uj.1 file);
     analysis := json_dumps E uj.2 |}.

Definition trace_of (files : list FileStorage) (ujs : list (string * json))
  : list event :=
  concat (zip_with (fun file uj => file_events uj.1 file) files ujs).

(** No storage call and no downstream call raises, whatever came before. *)
Definition never_raises (E : env) : Prop :=
  (forall h b d c, upload_from_file E h b d c = None) /\
  (forall h b, make_public E h b = None) /\
  (forall h url j, exists r v,
      requests_post E h url j = Ok r /\ json_loads E (text r) = Ok v).

(** *** Concrete surroundings, for running the handler *)

Definition sample_verdict : json :=
  JObj {[ "has_clouds" := JObj {[ "detected" := JBool true;
                                  "confidence" := JFloat (FNum (9 # 10));
                                  "reason" := JStr "white opaque texture" ]} ]}.

Definition error_body : json :=
  JObj {[ "detail" := JStr "model unavailable" ]}.

(** Everything works; the UUIDs are numbered by the length of the log. *)
Definition env_ok : env := {|
  uuid4 h := "uuid-" ++ pretty (length h);
  upload_from_file _ _ _ _ := None;
  make_public _ _ := None;
  requests_post _ _ _ := Ok {| status_code := 200; text := "VERDICT" |};
  public_url bucket blob := "https://storage.googleapis.com/" ++ bucket ++ "/" ++ blob;
  json_loads s := if String.eqb s "VERDICT" then Ok sample_verdict
                  else Raise (Exception "JSONDecodeError" "Expecting value");
  json_dumps _ := "{'has_clouds': ...}"
|}.

(** The downstream service answers every call with a 500 and a JSON
    [detail], as the inspection service does on an error. *)
Definition env_downstream_500 : env := {|
  uuid4 h := "uuid-" ++ pretty (length h);
  upload_from_file _ _ _ _ := None;
  make_public _ _ := None;
  requests_post _ _ _ := Ok {| status_code := 500; text := "DETAIL" |};
  public_url bucket blob := "https://storage.googleapis.com/" ++ bucket ++ "/" ++ blob;
  json_loads s := if String.eqb s "DETAIL" then Ok error_body
                  else Raise (Exception "JSONDecodeError" "Expecting value");
  json_dumps _ := "{'detail': 'model unavailable'}"
|}.

(** The storage write raises once something is already in the bucket. *)
Definition env_second_write_fails : env := {|
  uuid4 h := "uuid-" ++ pretty (length h);
  upload_from_file h _ _ _ :=
    if bool_decide (length h <= 1)%nat then None
    else Some (Exception "Forbidden" "403 POST: access denied");
  make_public _ _ := None;
  requests_post _ _ _ := Ok {| status_code := 200; text := "VERDICT" |};
  public_url bucket blob := "https://storage.googleapis.com/" ++ bucket ++ "/" ++ blob;
  json_loads s := if String.eqb s "VERDICT" then Ok sample_verdict
                  else Raise (Exception "JSONDecodeError" "Expecting value");
  json_dumps _ := "{'has_clouds': ...}"
|}.

Definition jpeg (name : string) : FileStorage :=
  {| filename := name; content_type := "image/jpeg"; stream := [] |}.

Definition w0 : world := {| log := [] |}.

(** *** The shape of a run, and what it holds *)

(** The events a run of [upload] adds to the log: the passes of the files
    in order, each complete, up to a pass that may stop early. *)
Inductive run_shape : list FileStorage -> list event -> Prop :=
| shape_stop files :
    run_shape files []
| shape_inside file rest u n :
    (n <= 4)%nat ->
    run_shape (file :: rest) (take n (file_events u file))
| shape_next file rest u evs :
    run_shape rest evs ->
    run_shape (file :: rest) (file_events u file ++ evs)%list.

Definition is_uuid4 (ev : event) : bool :=
  match ev with EvUuid4 _ => true | _ => false end.
Definition is_write (ev : event) : bool :=
  match ev with EvUploadFromFile _ _ _ => true | _ => false end.
Definition is_make_public (ev : event) : bool :=
  match ev with EvMakePublic _ => true | _ => false end.
Definition is_post (ev : event) : bool :=
  match ev with EvPost _ _ => true | _ => false end.

Definition count_if (p : event -> bool) (evs : list event) : nat :=
  length (List.filter p evs).

(** The characters that open or close markup or an attribute value. *)
Definition is_markup (c : ascii) : bool :=
  Ascii.eqb c "<" || Ascii.eqb c ">" || Ascii.eqb c "'" || Ascii.eqb c "034".

Fixpoint string_forall (p : ascii -> bool) (s : string) : bool :=
  match s with
  | EmptyString => true
  | String c rest => p c && string_forall p rest
  end.

Definition markup_free (s : string) : bool :=
  string_forall (fun c => negb (is_markup c)) s.

(** The first write is refused. *)
Definition env_write_fails : env := {|
  uuid4 h := "uuid-" ++ pretty (length h);
  upload_from_file _ _ _ _ := Some (Exception "Forbidden" "403 POST: access denied");
  make_public _ _ := None;
  requests_post _ _ _ := Ok {| status_code := 200; text := "VERDICT" |};
  public_url bucket blob := "https://storage.googleapis.com/" ++ bucket ++ "/" ++ blob;
  json_loads s := if String.eqb s "VERDICT" then Ok sample_verdict
                  else Raise (Exception "JSONDecodeError" "Expecting value");
  json_dumps _ := "{'has_clouds': ...}"
|}.

End UploadApp.

(** * Properties of the upload front-end *)

Section UploadProperties.
Import UploadApp.
Local Open Scope list_scope.
Context (E : env).

Lemma world_eta (w : world) : {| log := log w |} = w.
Proof. by destruct w. Qed.

(** One pass of the loop either runs its four calls and yields the
    file's entry, or raises after the storage write (two events), after
    [make_public] (three) or at the downstream call (four). *)
Lemma upload_one_cases (file : FileStorage) (w : world) :
  let u := uuid4 E (log w) in
  (exists j, upload_one E file w =
     (Ok (entry_of E file (u, j)), {| log := log w ++ file_events u file |}))
  \/ (exists e n, (2 <= n <= 4)%nat /\
        upload_one E file w =
          (Raise e, {| log := log w ++ take n (file_events u file) |})).
Proof.
  intros u. unfold upload_one, bind, call_uuid4, blob_upload_from_file,
    blob_make_public, post, response_json, ret. cbn [log].
  fold u. fold (blob_name_of u file). fold (gcs_uri_of u file).
  destruct (upload_from_file E _ _ _ _) as [e|]; cbn [log].
  { right. exists e, 2%nat. split; [lia|]. rewrite <- !app_assoc. reflexivity. }
  destruct (make_public E _ _) as [e|]; cbn [log].
  { right. exists e, 3%nat. split; [lia|]. rewrite <- !app_assoc. reflexivity. }
  destruct (requests_post E _ _ _) as [r|e]; cbn [log].
  - destruct (json_loads E (text r)) as [j|e]; cbn [log].
    + left. exists j. rewrite <- !app_assoc. reflexivity.
    + right. exists e, 4%nat. split; [lia|]. rewrite <- !app_assoc. reflexivity.
  - right. exists e, 4%nat. split; [lia|]. rewrite <- !app_assoc. reflexivity.
Qed.

(** A pass none of whose calls raises runs to its end; the status code of
    the downstream response plays no part. *)
Lemma upload_one_ok (file : FileStorage) (w : world) (r : response) (j : json) :
  upload_from_file E (log w ++ take 1 (file_events (uuid4 E (log w)) file))
    (blob_name_of (uuid4 E (log w)) file) (stream file) (content_type file)
    = None ->
  make_public E (log w ++ take 2 (file_events (uuid4 E (log w)) file))
    (blob_name_of (uuid4 E (log w)) file) = None ->
  requests_post E (log w ++ take 3 (file_events (uuid4 E (log w)) file))
    CLOUD_RUN_URL
    (JObj {[ "gcs_uri" := JStr (gcs_uri_of (uuid4 E (log w)) file) ]}) = Ok r ->
  json_loads E (text r) = Ok j ->
  upload_one E file w =
    (Ok (entry_of E file (uuid4 E (log w), j)),
     {| log := log w ++ file_events (uuid4 E (log w)) file |}).
Proof.
  intros Hup Hpub Hpost Hjson.
  unfold upload_one, bind, call_uuid4, blob_upload_from_file,
    blob_make_public, post, response_json, ret. cbn [log].
  fold (blob_name_of (uuid4 E (log w)) file).
  fold (gcs_uri_of (uuid4 E (log w)) file).
  cbn [take file_events] in Hup, Hpub, Hpost.
  rewrite Hup. cbn [log]. repeat rewrite <- app_assoc. cbn [app].
  rewrite Hpub. cbn [log]. repeat rewrite <- app_assoc. cbn [app].
  rewrite Hpost. cbn [log]. rewrite Hjson.
  repeat rewrite <- app_assoc. reflexivity.
Qed.

Lemma trace_of_cons file files uj ujs :
  trace_of (file :: files) (uj :: ujs)
  = (file_events uj.1 file ++ trace_of files ujs)%list.
Proof. reflexivity. Qed.

(** The loop either completes every file in order, or stops inside the
    first file whose pass raises, with that exception and with nothing
    done for the files after it. *)
Lemma upload_loop_cases (files : list FileStorage) :
  forall (results : list result_entry) (w : world),
    (exists ujs, length ujs = length files /\
       upload_loop E files results w =
         (Ok (results ++ zip_with (entry_of E) files ujs),
          {| log := log w ++ trace_of files ujs |}))
    \/ (exists done file later ujs e n,
          files = done ++ file :: later /\ length ujs = length done /\
          (2 <= n <= 4)%nat /\
          let w1 := {| log := log w ++ trace_of done ujs |} in
          let w2 := {| log := log w1 ++
                         take n (file_events (uuid4 E (log w1)) file) |} in
          upload_loop E done results w =
            (Ok (results ++ zip_with (entry_of E) done ujs), w1) /\
          upload_one E file w1 = (Raise e, w2) /\
          upload_loop E files results w = (Raise e, w2)).
Proof.
  induction files as [|file rest IH]; intros results w.
  - left. exists []. split; [done|]. cbn.
    by rewrite !app_nil_r, world_eta.
  - destruct (upload_one_cases file w) as [[j Hone]|(e & n & Hn & Hone)].
    + destruct (IH (results ++ [entry_of E file (uuid4 E (log w), j)])
                  {| log := log w ++ file_events (uuid4 E (log w)) file |})
        as [(ujs & Hlen & Hrun)
           |(done & f & later & ujs & e & n & -> & Hlen & Hn & Hpre & Hf & Hrun)].
      * left. exists ((uuid4 E (log w), j) :: ujs). split; [cbn; lia|].
        cbn [upload_loop]. unfold bind at 1. rewrite Hone, Hrun.
        rewrite trace_of_cons. cbn [zip_with log fst].
        rewrite <- !app_assoc. reflexivity.
      * right.
        exists (file :: done), f, later, ((uuid4 E (log w), j) :: ujs), e, n.
        split; [done|]. split; [cbn; lia|]. split; [done|].
        rewrite trace_of_cons. cbn [fst].
        cbn [log] in Hpre, Hf, Hrun |- *.
        repeat rewrite <- app_assoc in Hpre.
        repeat rewrite <- app_assoc in Hf.
        repeat rewrite <- app_assoc in Hrun.
        repeat rewrite <- app_assoc.
        split; [|split].
        -- cbn [app upload_loop]. unfold bind at 1. rewrite Hone, Hpre.
           cbn [zip_with]. reflexivity.
        -- exact Hf.
        -- cbn [app upload_loop]. unfold bind at 1. rewrite Hone.
           exact Hrun.
    + right. exists [], file, rest, [], e, n.
      split; [done|]. split; [done|]. split; [done|].
      cbn [trace_of zip_with concat log upload_loop ret app].
      rewrite !app_nil_r, world_eta.
      split; [done|]. split; [done|].
      unfold bind. by rewrite Hone.
Qed.

(** When no call raises, every pass runs to its end. *)
Lemma upload_loop_never_raises (files : list FileStorage) :
  never_raises E ->
  forall results w, exists out w', upload_loop E files results w = (Ok out, w').
Proof.
  intros (Hup & Hpub & Hpost).
  induction files as [|file rest IH]; intros results w; [by eexists _, _|].
  cbn [upload_loop]. unfold bind at 1, upload_one, bind, call_uuid4,
    blob_upload_from_file, blob_make_public, post, response_json, ret.
  cbn [log]. rewrite Hup, Hpub.
  match goal with |- context [requests_post E ?h ?u ?j] =>
    destruct (Hpost h u j) as (r & v & -> & ->) end.
  apply IH.
Qed.
Lemma selected_first (files : list FileStorage) :
  (1 <= length files)%nat ->
  (forall file, files !! 0%nat = Some file -> filename file <> "") ->
  no_files_selected files = false.
Proof.
  destruct files as [|file rest]; cbn; [lia|].
  intros _ Hname. apply String.eqb_neq. by apply Hname.
Qed.

(** C1. A request with N >= 1 files whose first filename is not empty,
    in surroundings where no storage call and no downstream call raises,
    is answered with the rendered page; its results list has exactly N
    entries, and the entry at position [i] is the one of the file
    submitted at position [i] (its blob name carries that file's name). *)
Theorem upload_one_entry_per_file (files : list FileStorage) (w : world) :
  (1 <= length files)%nat ->
  (forall file, files !! 0%nat = Some file -> filename file <> "") ->
  never_raises E ->
  exists ujs p w',
    upload E files w = (Ok (ok 200 (Html p)), w') /\
    results_heading p = true /\
    length (result_divs p) = length files /\
    (forall i file, files !! i = Some file ->
       exists uj, ujs !! i = Some uj /\
         result_divs p !! i = Some (render_div (entry_of E file uj))) /\
    log w' = log w ++ trace_of files ujs.
Proof.
  intros Hn Hfirst Hok.
  pose proof (selected_first files Hn Hfirst) as Hsel.
  destruct (upload_loop_never_raises files Hok [] w) as (out & w' & Hrun).
  destruct (upload_loop_cases files [] w)
    as [(ujs & Hlen & Hall)|(done & f & later & ujs & e & n & _ & _ & _ & _ & _ & Habs)];
    [|congruence].
  exists ujs, (render_template_string (Some (zip_with (entry_of E) files ujs))).
  eexists. unfold upload. rewrite Hsel. unfold bind. rewrite Hall.
  cbn [app]. split; [reflexivity|].
  destruct files as [|f0 rest]; [cbn in Hn; lia|].
  destruct ujs as [|uj0 ujs]; [done|].
  cbn [zip_with render_template_string results_heading result_divs log].
  split; [done|]. split.
  - rewrite length_fmap. cbn. rewrite length_zip_with. cbn in Hlen. lia.
  - split; [|done]. intros i file Hfile.
    destruct (lookup_lt_is_Some_2 (uj0 :: ujs) i) as [uj Huj].
    { rewrite Hlen. by eapply lookup_lt_Some. }
    exists uj. split; [done|].
    change (entry_of E f0 uj0 :: zip_with (entry_of E) rest ujs)
      with (zip_with (entry_of E) (f0 :: rest) (uj0 :: ujs)).
    rewrite list_lookup_fmap, lookup_zip_with, Hfile. cbn.
    by rewrite Huj.
Qed.

(** C4. A request whose file list is empty, or in which no file has a
    name (nothing was selected), is answered with status 400 and the
    text "No files selected": a client error, and nothing is stored or
    sent. *)
Theorem upload_nothing_selected_is_400 (files : list FileStorage) (w : world) :
  (forall file, file ∈ files -> filename file = "") ->
  upload_route E files w = (ok 400 (Plain "No files selected"), w) /\
  400 <= status (upload_route E files w).1 < 500.
Proof.
  intros Hnone.
  assert (no_files_selected files = true) as Hsel.
  { destruct files as [|file rest]; [done|]. cbn.
    apply String.eqb_eq, Hnone. by left. }
  unfold upload_route, upload. rewrite Hsel. cbn. split; [done|lia].
Qed.

(** C6, as the code has it.  The files are handled one after another,
    each by its four outside calls in order.  Either every pass runs to
    its end and the page lists one entry per file, or the run stops
    inside the first file whose pass raises an exception (from the
    storage write, [make_public], the POST or the decoding of its body):
    the handler raises that exception, Flask answers 500, and the log
    ends inside that file's pass, so nothing is done for any file after
    it.  A pass none of whose calls raises runs to its end whatever the
    status code of the downstream response. *)
Theorem upload_sequential_abort (files : list FileStorage) (w : world) :
  no_files_selected files = false ->
  ((exists ujs, length ujs = length files /\
      upload E files w =
        (Ok (ok 200 (Html (render_template_string
                             (Some (zip_with (entry_of E) files ujs))))),
         {| log := log w ++ trace_of files ujs |}))
   \/ (exists done file later ujs e n,
         files = done ++ file :: later /\ length ujs = length done /\
         (2 <= n <= 4)%nat /\
         let w1 := {| log := log w ++ trace_of done ujs |} in
         let w2 := {| log := log w1 ++
                        take n (file_events (uuid4 E (log w1)) file) |} in
         upload_loop E done [] w = (Ok (zip_with (entry_of E) done ujs), w1) /\
         upload_one E file w1 = (Raise e, w2) /\
         upload E files w = (Raise e, w2) /\
         upload_route E files w = (ok 500 (Plain "Internal Server Error"), w2)))
  /\ (forall file w1 r j,
        upload_from_file E (log w1 ++ take 1 (file_events (uuid4 E (log w1)) file))
          (blob_name_of (uuid4 E (log w1)) file) (stream file) (content_type file)
          = None ->
        make_public E (log w1 ++ take 2 (file_events (uuid4 E (log w1)) file))
          (blob_name_of (uuid4 E (log w1)) file) = None ->
        requests_post E (log w1 ++ take 3 (file_events (uuid4 E (log w1)) file))
          CLOUD_RUN_URL
          (JObj {[ "gcs_uri" := JStr (gcs_uri_of (uuid4 E (log w1)) file) ]})
          = Ok r ->
        json_loads E (text r) = Ok j ->
        upload_one E file w1 =
          (Ok (entry_of E file (uuid4 E (log w1), j)),
           {| log := log w1 ++ file_events (uuid4 E (log w1)) file |})).
Proof.
  intros Hsel. split; [|apply upload_one_ok].
  unfold upload_route, upload. rewrite Hsel. unfold bind.
  destruct (upload_loop_cases files [] w)
    as [(ujs & Hlen & Hall)
       |(done & f & later & ujs & e & n & Hsplit & Hlen & Hn & Hpre & Hf & Hrun)].
  - left. exists ujs. split; [done|]. by rewrite Hall.
  - right. exists done, f, later, ujs, e, n.
    cbn zeta in Hpre, Hf, Hrun |- *. rewrite Hrun.
    split; [exact Hsplit|]. split; [exact Hlen|]. split; [exact Hn|].
    split; [exact Hpre|]. split; [exact Hf|]. split; reflexivity.
Qed.

(** C10. The missing-input check looks at the first file only: an empty
    first filename is a 400 whatever follows it, and a non-empty first
    filename passes the check whatever follows it, so that the handler
    goes on to the loop and its answer is the loop's. *)
Theorem upload_check_first_only (first : FileStorage)
    (later : list FileStorage) (w : world) :
  (filename first = "" ->
     upload_route E (first :: later) w = (ok 400 (Plain "No files selected"), w))
  /\ (filename first <> "" ->
        no_files_selected (first :: later) = false /\
        (upload E (first :: later) w).1 <> Ok (ok 400 (Plain "No files selected")) /\
        upload E (first :: later) w =
          bind (upload_loop E (first :: later) [])
            (fun results =>
               ret (ok 200 (Html (render_template_string (Some results))))) w).
Proof.
  split.
  - intros Hempty. unfold upload_route, upload. cbn.
    by rewrite Hempty.
  - intros Hname.
    assert (no_files_selected (first :: later) = false) as Hsel
      by (cbn; by apply String.eqb_neq).
    split; [done|]. unfold upload. rewrite Hsel. split; [|done].
    unfold bind, ret.
    destruct (upload_loop E (first :: later) [] w) as [[out|e] w'];
      cbn; unfold ok; discriminate.
Qed.
End UploadProperties.

(** * Properties of the inspection service *)

Section InspectorProperties.
Import Inspector.
Context (E : env) {C : Conversion} (agent : SatelliteInspector).

(** ** Validation and serialization *)

Lemma IssueAssessment_validate_value (a : IssueAssessment) :
  IssueAssessment_validate (assessment_value a) = Some a.
Proof.
  destruct a as [d c r]. unfold IssueAssessment_validate, assessment_value.
  cbn [detected confidence reason]. simplify_map_eq.
  by rewrite to_bool_exact, to_float_exact, to_str_exact.
Qed.

Lemma SatelliteAnalysis_validate_value (a : SatelliteAnalysis) :
  SatelliteAnalysis_validate (analysis_value a) = Some a.
Proof.
  destruct a as [c s k o].
  unfold SatelliteAnalysis_validate, analysis_value.
  cbn [has_clouds has_snow has_color_issues has_other_issues].
  simplify_map_eq.
  rewrite !to_bool_exact, !to_float_exact, !to_str_exact. cbn.
  by destruct c, s, k, o.
Qed.

(** A finite float is written as it is. *)
Lemma IssueAssessment_dump_finite (a : IssueAssessment) :
  is_finite (confidence a) = true ->
  IssueAssessment_dump a = assessment_value a.
Proof.
  intros Hfin. unfold IssueAssessment_dump, assessment_value, float_to_json.
  by rewrite Hfin.
Qed.

Lemma SatelliteAnalysis_dump_finite (a : SatelliteAnalysis) :
  finite_scores a -> SatelliteAnalysis_dump a = analysis_value a.
Proof.
  intros (Hc & Hs & Hk & Ho). unfold SatelliteAnalysis_dump, analysis_value.
  by rewrite !IssueAssessment_dump_finite.
Qed.

(** A float that is not finite is written as [null]. *)
Lemma IssueAssessment_dump_not_finite (a : IssueAssessment) :
  is_finite (confidence a) = false ->
  IssueAssessment_dump a
    = JObj {[ "detected" := JBool (detected a);
              "confidence" := JNull;
              "reason" := JStr (reason a) ]}.
Proof.
  intros Hinf. unfold IssueAssessment_dump, float_to_json. by rewrite Hinf.
Qed.

Lemma IssueAssessment_dump_shaped (a : IssueAssessment) :
  assessment_shaped (IssueAssessment_dump a).
Proof.
  eexists _, (detected a), (float_to_json (confidence a)), (reason a).
  split; [reflexivity|]. split.
  - rewrite !dom_insert_L, dom_singleton_L. cbn. set_solver.
  - split; [by simplify_map_eq|]. split; [by simplify_map_eq|].
    split; [|by simplify_map_eq].
    unfold float_to_json. destruct (confidence a) as [q| |]; cbn; eauto.
Qed.

Lemma SatelliteAnalysis_dump_shaped (a : SatelliteAnalysis) :
  analysis_shaped (SatelliteAnalysis_dump a).
Proof.
  eexists. split; [reflexivity|]. split.
  - rewrite !dom_insert_L, dom_singleton_L. cbn. set_solver.
  - intros k Hk. cbn in Hk.
    repeat (apply elem_of_cons in Hk as [->|Hk]);
      [| | | |by apply elem_of_nil in Hk];
      eexists; (split; [by simplify_map_eq|]);
      apply IssueAssessment_dump_shaped.
Qed.

(** ** The endpoint *)

(** [POST /analyze], outcome by outcome: the model raises, its text does
    not decode, the decoded value does not validate, or it does. *)
Lemma serve_analyze (request : AnalysisRequest) (raw : raw_request) (w : world) :
  serve E agent (POST_analyze request) raw w =
    match model_reply E agent request w with
    | Raise e => (error_500 e, world_failed E agent request w e)
    | Ok s =>
        match json_loads E s with
        | Raise e => (error_500 e, world_failed E agent request w e)
        | Ok d =>
            match SatelliteAnalysis_validate d with
            | Some a => (ok_200 a, world_called E agent request w)
            | None =>
                ({| status := 500; body := BText "Internal Server Error" |},
                 world_called E agent request w)
            end
        end
    end.
Proof.
  unfold serve, analyze_endpoint, try_except, bind, print, emit,
    analyze_from_uri, _generate, generate_content, raise, ret.
  cbn [log fs]. fold (analyze_history request w).
  fold (analyze_request E agent request).
  fold (model_reply E agent request w).
  destruct (model_reply E agent request w) as [s|e]; [|reflexivity].
  destruct (json_loads E s) as [d|e]; [|reflexivity].
  cbn. by destruct (SatelliteAnalysis_validate d).
Qed.


(** C2, as the code has it.  When [POST /analyze] answers 200, the body
    is a JSON object with exactly the four category keys, each an object
    with exactly a boolean [detected], a [confidence] that is a finite
    number or [null], and a string [reason].  Nothing is checked beyond
    the types: whatever verdict the model's text decodes to, with any
    float as score and any text as rationale, is accepted and answered
    with status 200; the body is that verdict as it is when its scores are
    finite, and has [null] in the place of a score that is not. *)
Theorem analyze_success_shape (request : AnalysisRequest)
    (raw : raw_request) (w : world) :
  (status (serve E agent (POST_analyze request) raw w).1 = 200 ->
     exists a,
       body (serve E agent (POST_analyze request) raw w).1
         = BJson (SatelliteAnalysis_dump a) /\
       analysis_shaped (SatelliteAnalysis_dump a))
  /\ (forall s a,
        model_reply E agent request w = Ok s ->
        json_loads E s = Ok (analysis_value a) ->
        serve E agent (POST_analyze request) raw w
          = (ok_200 a, world_called E agent request w) /\
        (finite_scores a -> ok_200 a
           = {| status := 200; body := BJson (analysis_value a) |})).
Proof.
  rewrite serve_analyze. split.
  - destruct (model_reply E agent request w) as [s|e]; [|discriminate].
    destruct (json_loads E s) as [d|e]; [|discriminate].
    destruct (SatelliteAnalysis_validate d) as [a|]; [|discriminate].
    intros _. exists a. split; [reflexivity|].
    apply SatelliteAnalysis_dump_shaped.
  - intros s a -> ->. rewrite SatelliteAnalysis_validate_value.
    split; [reflexivity|]. intros Hfin. unfold ok_200.
    by rewrite (SatelliteAnalysis_dump_finite a Hfin).
Qed.


(** C8. [GET /health] answers 200 with [{"status": "ok"}], leaves the
    world as it is, and answers the same whatever the request carries
    and whatever happened before. *)
Theorem health_check_static (raw : raw_request) (w : world) :
  serve E agent GET_health raw w
    = ({| status := 200; body := BJson (JObj {[ "status" := JStr "ok" ]}) |}, w)
  /\ forall raw' w',
       (serve E agent GET_health raw' w').1 = (serve E agent GET_health raw w).1.
Proof. split; [reflexivity|]. intros raw' w'. reflexivity. Qed.

(** C9. When the path names nothing in the file system, [analyze_image]
    raises [FileNotFoundError] and the world, the log included, is the
    one it started from: nothing was read and the model was not called. *)
Theorem analyze_image_missing_file (self : SatelliteInspector)
    (image_path : string) (w : world) :
  fs w !! image_path = None ->
  analyze_image E self image_path w
    = (Raise (Exception "FileNotFoundError"
                ("Image not found at " ++ image_path)), w).
Proof.
  intros Hmiss. unfold analyze_image, bind, os_path_exists.
  rewrite Hmiss. rewrite bool_decide_eq_false_2; [reflexivity|].
  by intros [? ?].
Qed.

(** X17. A path that names a directory passes the existence test; [open]
    then raises [IsADirectoryError], again before anything is read or
    sent. *)
Lemma analyze_image_directory (self : SatelliteInspector)
    (image_path : string) (w : world) :
  fs w !! image_path = Some Dir ->
  analyze_image E self image_path w
    = (Raise (Exception "IsADirectoryError"
                ("[Errno 21] Is a directory: '" ++ image_path ++ "'")), w).
Proof.
  intros Hdir. unfold analyze_image, bind, os_path_exists, open_read.
  rewrite Hdir. rewrite bool_decide_eq_true_2 by eauto. cbn.
  by rewrite Hdir.
Qed.

(** C5. An agent built by [__init__] sends, from either entry point,
    nothing to the model but requests that open with the fixed
    instruction, verbatim, and ask for JSON under the schema of
    [SatelliteAnalysis]; and whenever an entry point returns a text, such
    a request was sent. *)
Theorem generate_under_policy (project_id location : string)
    (ep : entry_point) (w : world) :
  exists new : list event,
    log (run_entry E (SatelliteInspector_init project_id location) ep w).2
      = (log w ++ new)%list /\
    (forall req, EvGenerate req ∈ new -> under_policy E req) /\
    (forall s,
       (run_entry E (SatelliteInspector_init project_id location) ep w).1 = Ok s ->
       exists image_part,
         EvGenerate (generation_request E
                       (SatelliteInspector_init project_id location)
                       image_part) ∈ new).
Proof.
  assert (forall image_part,
            under_policy E (generation_request E
              (SatelliteInspector_init project_id location) image_part)) as Hpol.
  { intros image_part. unfold under_policy. cbn. by simplify_map_eq. }
  destruct ep as [uri mime|path]; cbn [run_entry].
  - exists [EvGenerate (generation_request E
              (SatelliteInspector_init project_id location)
              (Part_from_uri uri mime))].
    split; [reflexivity|]. split.
    + intros req [[= ->]|Hin]%elem_of_cons;
        [apply Hpol|by apply elem_of_nil in Hin].
    + intros s _. eexists. apply list_elem_of_singleton. reflexivity.
  - unfold analyze_image, bind, os_path_exists, open_read.
    destruct (fs w !! path) as [[data|]|] eqn:Hfs.
    + rewrite bool_decide_eq_true_2 by eauto. cbn. rewrite ?Hfs. cbn.
      exists [EvRead path;
              EvGenerate (generation_request E
                (SatelliteInspector_init project_id location)
                (Part_from_data data "image/jpeg"))].
      split.
      { rewrite <- app_assoc. reflexivity. }
      split.
      * intros req [Heq|[[= ->]|Hin]%elem_of_cons]%elem_of_cons;
          [discriminate|apply Hpol|by apply elem_of_nil in Hin].
      * intros s _. eexists. apply elem_of_cons. right.
        apply list_elem_of_singleton. reflexivity.
    + rewrite bool_decide_eq_true_2 by eauto. cbn. rewrite ?Hfs. cbn.
      exists []. split; [by rewrite app_nil_r|].
      split; [by intros req Hin%elem_of_nil|discriminate].
    + rewrite bool_decide_eq_false_2 by (by intros [? ?]). cbn.
      exists []. split; [by rewrite app_nil_r|].
      split; [by intros req Hin%elem_of_nil|discriminate].
Qed.

(** ** Round trip *)





End InspectorProperties.

(** * The handlers at work *)

Section UploadRuns.
Import UploadApp.
Local Open Scope list_scope.

Lemma env_ok_never_raises : never_raises env_ok.
Proof.
  split; [done|]. split; [done|]. intros h url j.
  by exists {| status_code := 200; text := "VERDICT" |}, sample_verdict.
Qed.

Lemma upload_one_entry_per_file_witness :
  exists ujs p w',
    upload env_ok [jpeg "a.jpg"; jpeg "b.jpg"] w0 = (Ok (ok 200 (Html p)), w') /\
    results_heading p = true /\
    length (result_divs p) = 2%nat /\
    (forall i file, [jpeg "a.jpg"; jpeg "b.jpg"] !! i = Some file ->
       exists uj, ujs !! i = Some uj /\
         result_divs p !! i = Some (render_div (entry_of env_ok file uj))) /\
    log w' = log w0 ++ trace_of [jpeg "a.jpg"; jpeg "b.jpg"] ujs.
Proof.
  apply (upload_one_entry_per_file env_ok [jpeg "a.jpg"; jpeg "b.jpg"] w0).
  - simpl. lia.
  - intros file [= <-]. discriminate.
  - exact env_ok_never_raises.
Defined.

Lemma upload_nothing_selected_is_400_witness :
  upload_route env_ok [jpeg ""] w0 = (ok 400 (Plain "No files selected"), w0) /\
  400 <= status (upload_route env_ok [jpeg ""] w0).1 < 500.
Proof.
  apply (upload_nothing_selected_is_400 env_ok [jpeg ""] w0).
  intros file Hin. apply list_elem_of_singleton in Hin. subst file.
  reflexivity.
Defined.

(** Against C6 as stated: the downstream service fails on the first of
    two files (status 500), and the handler goes on: it stores and sends
    the second file and answers 200 with two entries. *)
Lemma upload_goes_on_after_downstream_500 :
  requests_post env_downstream_500
    (take 3 (file_events "uuid-0" (jpeg "a.jpg"))) CLOUD_RUN_URL
    (JObj {[ "gcs_uri" := JStr (gcs_uri_of "uuid-0" (jpeg "a.jpg")) ]})
    = Ok {| status_code := 500; text := "DETAIL" |}
  /\ upload env_downstream_500 [jpeg "a.jpg"; jpeg "b.jpg"] w0
     = (Ok (ok 200 (Html {|
          results_heading := true;
          result_divs :=
            [ ("https://storage.googleapis.com/your-unique-bucket-name/uploads/uuid-0-a.jpg",
               "{&#39;detail&#39;: &#39;model unavailable&#39;}");
              ("https://storage.googleapis.com/your-unique-bucket-name/uploads/uuid-4-b.jpg",
               "{&#39;detail&#39;: &#39;model unavailable&#39;}") ] |})),
        {| log := file_events "uuid-0" (jpeg "a.jpg")
                    ++ file_events "uuid-4" (jpeg "b.jpg") |}).
Proof. split; [reflexivity|]. vm_compute. reflexivity. Qed.

Lemma upload_sequential_abort_witness :
  no_files_selected [jpeg "a.jpg"; jpeg "b.jpg"; jpeg "c.jpg"] = false /\
  upload_route env_second_write_fails
    [jpeg "a.jpg"; jpeg "b.jpg"; jpeg "c.jpg"] w0
    = (ok 500 (Plain "Internal Server Error"),
       {| log := file_events "uuid-0" (jpeg "a.jpg")
                   ++ take 2 (file_events "uuid-4" (jpeg "b.jpg")) |}).
Proof.
  split; [reflexivity|].
  destruct (proj1 (upload_sequential_abort env_second_write_fails
                     [jpeg "a.jpg"; jpeg "b.jpg"; jpeg "c.jpg"] w0 eq_refl))
    as [(ujs & _ & Hall)|_].
  - vm_compute in Hall. discriminate Hall.
  - vm_compute. reflexivity.
Defined.

Lemma upload_check_first_only_witness :
  upload_route env_ok [jpeg ""; jpeg "b.jpg"] w0
    = (ok 400 (Plain "No files selected"), w0)
  /\ no_files_selected [jpeg "a.jpg"; jpeg ""] = false.
Proof.
  split.
  - apply (proj1 (upload_check_first_only env_ok (jpeg "") [jpeg "b.jpg"] w0)).
    reflexivity.
  - apply (proj2 (upload_check_first_only env_ok (jpeg "a.jpg") [jpeg ""] w0)).
    discriminate.
Defined.
End UploadRuns.

Section InspectorRuns.
Import Inspector.

Example SYSTEM_INSTRUCTION_length :
  String.length SYSTEM_INSTRUCTION = 965%nat.
Proof. reflexivity. Qed.

(** Against C2 as stated: the model answers with a score of 3/2 and an
    empty rationale, and the endpoint passes the verdict on with status
    200; and when the model's text has [NaN] for a score, the endpoint
    answers 200 again, with [null] where the score belongs. *)
Lemma analyze_accepts_out_of_range :
  (serve (C:=strict_conversion) (env_replying (Ok "ODD")) agent0
     (POST_analyze request0) raw0 w0).1 = ok_200 odd_verdict
  /\ ~ score_in_range (has_clouds odd_verdict)
  /\ ~ has_rationale (has_clouds odd_verdict)
  /\ (serve (C:=strict_conversion) (env_replying (Ok "NAN")) agent0
        (POST_analyze request0) raw0 w0).1 = ok_200 nan_verdict
  /\ ~ score_in_range (has_clouds nan_verdict)
  /\ IssueAssessment_dump (has_clouds nan_verdict)
       = JObj {[ "detected" := JBool true;
                 "confidence" := JNull;
                 "reason" := JStr "white opaque texture over the coast" ]}.
Proof.
  split; [vm_compute; reflexivity|]. split; [|split; [|split; [|split]]].
  - intros [_ Hle]. unfold Qle in Hle. cbn in Hle. lia.
  - intros Hne. by apply Hne.
  - vm_compute. reflexivity.
  - intros [].
  - reflexivity.
Qed.

Lemma analyze_success_shape_witness :
  exists a,
    body (serve (C:=strict_conversion) (env_replying (Ok "GOOD")) agent0
            (POST_analyze request0) raw0 w0).1
      = BJson (SatelliteAnalysis_dump a) /\
    analysis_shaped (SatelliteAnalysis_dump a).
Proof.
  apply (proj1 (analyze_success_shape (C:=strict_conversion)
                  (env_replying (Ok "GOOD")) agent0 request0 raw0 w0)).
  vm_compute. reflexivity.
Defined.


Lemma analyze_image_missing_file_witness :
  analyze_image (env_replying (Ok "GOOD")) agent0 "nowhere.jpg" w1
    = (Raise (Exception "FileNotFoundError" "Image not found at nowhere.jpg"), w1).
Proof.
  apply (analyze_image_missing_file (env_replying (Ok "GOOD")) agent0
           "nowhere.jpg" w1).
  vm_compute. reflexivity.
Defined.





End InspectorRuns.

(** * More on the upload front-end *)

Section UploadMore.
Import UploadApp.
Local Open Scope list_scope.
Context (E : env).

Lemma trace_shape (files : list FileStorage) :
  forall ujs, run_shape files (trace_of files ujs).
Proof.
  induction files as [|file rest IH]; intros [|uj ujs];
    try apply shape_stop.
  rewrite trace_of_cons. apply shape_next, IH.
Qed.

Lemma trace_shape_inside (done : list FileStorage) :
  forall ujs file later u n,
    length ujs = length done -> (n <= 4)%nat ->
    run_shape (done ++ file :: later)
      (trace_of done ujs ++ take n (file_events u file)).
Proof.
  induction done as [|d done IH]; intros [|uj ujs] file later u n Hlen Hn;
    try discriminate.
  - by apply shape_inside.
  - rewrite trace_of_cons, <- app_assoc. cbn [app].
    apply shape_next, IH; [by injection Hlen|done].
Qed.

(** What a run adds to the log has the shape of a run. *)
Lemma upload_run_shape (files : list FileStorage) (w : world) :
  exists new, log (upload E files w).2 = log w ++ new /\ run_shape files new.
Proof.
  unfold upload. destruct (no_files_selected files).
  { exists []. split; [by rewrite app_nil_r|apply shape_stop]. }
  unfold bind.
  destruct (upload_loop_cases E files [] w)
    as [(ujs & Hlen & ->)
       |(done & f & later & ujs & e & n & -> & Hlen & Hn & _ & _ & Hrun)].
  - exists (trace_of files ujs). split; [reflexivity|apply trace_shape].
  - cbn zeta in Hrun. rewrite Hrun. cbn [snd log].
    eexists. split; [by rewrite <- app_assoc|].
    apply trace_shape_inside; [done|lia].
Qed.

Lemma shape_post_after_store (files : list FileStorage) (new : list event) :
  run_shape files new ->
  forall pre url body post,
    new = pre ++ EvPost url body :: post ->
    exists pre' u file,
      file ∈ files /\
      pre = pre' ++ take 3 (file_events u file) /\
      url = CLOUD_RUN_URL /\
      body = JObj {[ "gcs_uri" := JStr (gcs_uri_of u file) ]}.
Proof.
  induction 1 as [files|file rest u n Hn|file rest u evs Hshape IH];
    intros pre url body post Heq.
  - by destruct pre.
  - destruct n as [|[|[|[|[|n]]]]]; [| | | | |lia];
      destruct pre as [|a [|b [|c [|d pre]]]]; simplify_eq/=;
      try (by destruct pre).
    exists [], u, file. split; [by left|done].
  - destruct pre as [|a [|b [|c [|d pre]]]]; simplify_eq/=.
    + exists [], u, file. split; [by left|done].
    + destruct (IH _ _ _ _ eq_refl) as (pre' & u' & file' & Hin & -> & -> & ->).
      exists (file_events u file ++ pre'), u', file'.
      split; [by right|]. split; [|done].
      by rewrite <- app_assoc.
Qed.

Lemma count_if_app (p : event -> bool) (a b : list event) :
  count_if p (a ++ b) = (count_if p a + count_if p b)%nat.
Proof. unfold count_if. by rewrite List.filter_app, length_app. Qed.

Lemma shape_counts (files : list FileStorage) (new : list event) :
  run_shape files new ->
  (count_if is_post new <= count_if is_make_public new)%nat /\
  (count_if is_make_public new <= count_if is_write new)%nat /\
  (count_if is_write new <= count_if is_uuid4 new)%nat /\
  (count_if is_uuid4 new <= length files)%nat.
Proof.
  induction 1 as [files|file rest u n Hn|file rest u evs Hshape IH].
  - cbn. lia.
  - destruct n as [|[|[|[|[|n]]]]]; cbn; lia.
  - rewrite !count_if_app. cbn. lia.
Qed.

(** X1. Whenever [/upload] answers 200, the page lists every submitted
    file: one entry per file, in submission order, under the results
    heading.  No page shows part of a request. *)
Theorem upload_200_lists_all_files (files : list FileStorage) (w : world) :
  status (upload_route E files w).1 = 200 ->
  exists ujs,
    length ujs = length files /\
    (upload_route E files w).1 =
      ok 200 (Html {| results_heading := true;
                      result_divs :=
                        render_div <$> zip_with (entry_of E) files ujs |}) /\
    length (render_div <$> zip_with (entry_of E) files ujs) = length files.
Proof.
  unfold upload_route, upload.
  destruct (no_files_selected files) eqn:Hsel; [discriminate|].
  unfold bind.
  destruct (upload_loop_cases E files [] w)
    as [(ujs & Hlen & ->)
       |(done & f & later & ujs & e & n & _ & _ & _ & _ & _ & Hrun)].
  - intros _. exists ujs. split; [done|]. cbn [app fst ret].
    destruct files as [|f0 rest]; [discriminate|].
    destruct ujs as [|uj0 ujs]; [discriminate|].
    split; [reflexivity|].
    rewrite length_fmap, length_zip_with. lia.
  - cbn zeta in Hrun. rewrite Hrun. discriminate.
Qed.

(** X3. In every run of [upload], each POST to the inspection service
    comes directly after the UUID, the storage write and the [make_public]
    of one of the submitted files, goes to [CLOUD_RUN_URL], and carries the
    [gs://] URI of exactly that blob. *)
Theorem upload_post_after_store (files : list FileStorage) (w : world)
    (pre post : list event) (url : string) (body : json) :
  log (upload E files w).2 = log w ++ pre ++ EvPost url body :: post ->
  exists pre' u file,
    file ∈ files /\
    pre = pre' ++ [ EvUuid4 u;
                    EvUploadFromFile (blob_name_of u file) (stream file)
                      (content_type file);
                    EvMakePublic (blob_name_of u file) ] /\
    url = CLOUD_RUN_URL /\
    body = JObj {[ "gcs_uri" :=
                     JStr ("gs://" +:+ GCS_BUCKET_NAME +:+ "/"
                             +:+ blob_name_of u file) ]}.
Proof.
  intros Hlog.
  destruct (upload_run_shape files w) as (new & Hnew & Hshape).
  rewrite Hnew in Hlog. apply app_inv_head in Hlog.
  exact (shape_post_after_store files new Hshape pre url body post Hlog).
Qed.

(** X4. No call is repeated: in every run of [upload] there are at most
    as many POSTs as [make_public] calls, at most as many of those as
    storage writes, at most as many writes as UUIDs drawn, and at most one
    UUID per submitted file. *)
Theorem upload_no_retry (files : list FileStorage) (w : world) :
  exists new,
    log (upload E files w).2 = log w ++ new /\
    (count_if is_post new <= count_if is_make_public new)%nat /\
    (count_if is_make_public new <= count_if is_write new)%nat /\
    (count_if is_write new <= count_if is_uuid4 new)%nat /\
    (count_if is_uuid4 new <= length files)%nat.
Proof.
  destruct (upload_run_shape files w) as (new & Hnew & Hshape).
  exists new. split; [done|]. by apply (shape_counts files).
Qed.

Lemma string_app_inj_len (a a' b b' : string) :
  String.length a = String.length a' ->
  a +:+ b = a' +:+ b' -> a = a' /\ b = b'.
Proof.
  revert a'. induction a as [|c a IH]; intros [|c' a'] Hlen Heq;
    try discriminate; [done|].
  injection Hlen as Hlen. injection Heq as -> Heq.
  destruct (IH a' Hlen Heq) as [-> ->]. done.
Qed.

(** X5. The storage key keeps the UUID and the file's name apart: for
    UUIDs of the same length (the text of a UUID always has 36 characters),
    two keys are equal only if both the UUIDs and the file names are. *)
Theorem blob_name_of_inj (u u' : string) (file file' : FileStorage) :
  String.length u = String.length u' ->
  blob_name_of u file = blob_name_of u' file' ->
  u = u' /\ filename file = filename file'.
Proof.
  intros Hlen Heq. unfold blob_name_of in Heq.
  change ("uploads/" +:+ u +:+ "-" +:+ filename file)
    with ("uploads/" +:+ (u +:+ ("-" +:+ filename file))) in Heq.
  apply (string_app_inj_len "uploads/" "uploads/") in Heq as [_ Heq]; [|done].
  apply string_app_inj_len in Heq as [-> Heq]; [|done].
  split; [done|]. by injection Heq.
Qed.

(** X6. The two services agree on the request: in every run of [upload],
    the body of each POST reads as an [AnalysisRequest] of the inspection
    service, whose [gcs_uri] is the URI of the blob of one of the submitted
    files. *)
Theorem posted_body_is_request {C : Inspector.Conversion}
    (files : list FileStorage) (w : world)
    (pre post : list event) (url : string) (body : json) :
  log (upload E files w).2 = log w ++ pre ++ EvPost url body :: post ->
  exists u file,
    file ∈ files /\
    Inspector.AnalysisRequest_validate body
      = Some {| Inspector.gcs_uri := gcs_uri_of u file |}.
Proof.
  intros Hlog.
  destruct (upload_run_shape files w) as (new & Hnew & Hshape).
  rewrite Hnew in Hlog. apply app_inv_head in Hlog.
  destruct (shape_post_after_store files new Hshape pre url body post Hlog)
    as (pre' & u & file & Hin & _ & _ & ->).
  exists u, file. split; [done|].
  cbn. rewrite lookup_singleton_eq. cbn.
  by rewrite Inspector.to_str_exact.
Qed.

Lemma string_forall_app (p : ascii -> bool) (a b : string) :
  string_forall p (a +:+ b) = string_forall p a && string_forall p b.
Proof.
  induction a as [|c a IH]; [done|].
  change (String c a +:+ b) with (String c (a +:+ b)).
  cbn [string_forall]. by rewrite IH, andb_assoc.
Qed.

Lemma escape_char_markup_free (c : ascii) : markup_free (escape_char c) = true.
Proof.
  unfold escape_char.
  destruct (Ascii.eqb c "&"); [done|].
  destruct (Ascii.eqb c "<") eqn:Hlt; [done|].
  destruct (Ascii.eqb c ">") eqn:Hgt; [done|].
  destruct (Ascii.eqb c "'") eqn:Hsq; [done|].
  destruct (Ascii.eqb c "034") eqn:Hdq; [done|].
  cbn. unfold is_markup. by rewrite Hlt, Hgt, Hsq, Hdq.
Qed.

Lemma escape_markup_free (s : string) : markup_free (escape s) = true.
Proof.
  induction s as [|c s IH]; [done|]. cbn [escape]. unfold markup_free in *.
  rewrite string_forall_app, IH, andb_true_r.
  apply escape_char_markup_free.
Qed.

(** X7. Whatever the entries hold, the texts of the rendered page contain
    none of the characters that open or close markup or an attribute
    value: no file name and no analysis text can put markup of its own into
    the page. *)
Theorem rendered_page_markup_free (results : option (list result_entry))
    (d : string * string) :
  d ∈ result_divs (render_template_string results) ->
  markup_free d.1 = true /\ markup_free d.2 = true.
Proof.
  destruct results as [[|r rs]|]; cbn [render_template_string result_divs];
    try (by intros Hin%elem_of_nil).
  intros (r' & -> & _)%list_elem_of_fmap. cbn.
  split; apply escape_markup_free.
Qed.
End UploadMore.

(** * More on the inspection service *)

Section InspectorMore.
Import Inspector.
Context (E : env) {C : Conversion}.

(** X8. Whatever the model or the decoding of its text raises,
    [analyze_endpoint] lets nothing out but an [HTTPException] with status
    500; and it leaves the file system as it is. *)
Theorem analyze_endpoint_only_http_500 (agent : SatelliteInspector)
    (request : AnalysisRequest) (w : world) :
  fs (analyze_endpoint E agent request w).2 = fs w /\
  ((exists d, (analyze_endpoint E agent request w).1 = Ok d) \/
   (exists detail,
      (analyze_endpoint E agent request w).1 = Raise (HTTPException 500 detail))).
Proof.
  unfold analyze_endpoint, try_except, bind, print, emit, analyze_from_uri,
    _generate, generate_content, raise, ret. cbn [log fs].
  destruct (gemini E _ _) as [s|e]; cbn.
  - destruct (json_loads E s) as [d|e]; cbn; eauto.
  - eauto.
Qed.

(** X9. One request, one call of the model: whatever the outcome,
    [POST /analyze] adds to the log the line that announces the request,
    then exactly one call of the model, for the request's URI as an
    [image/jpeg] part, then at most one line that reports an error; and the
    file system is not touched.  Nothing is tried twice. *)
Theorem analyze_one_model_call (agent : SatelliteInspector)
    (request : AnalysisRequest) (raw : raw_request) (w : world) :
  exists tail,
    log (serve E agent (POST_analyze request) raw w).2
      = (log w
           ++ [ EvPrint ("Received request for: " ++ gcs_uri request);
                EvGenerate (generation_request E agent
                              (Part_from_uri (gcs_uri request) "image/jpeg")) ]
           ++ tail)%list /\
    (tail = [] \/ exists line, tail = [EvPrint line]) /\
    fs (serve E agent (POST_analyze request) raw w).2 = fs w.
Proof.
  rewrite serve_analyze.
  destruct (model_reply E agent request w) as [s|e].
  - destruct (json_loads E s) as [d|e].
    + exists []. destruct (SatelliteAnalysis_validate d); cbn;
        unfold analyze_history; rewrite <- !app_assoc; eauto.
    + eexists [_]. cbn. unfold analyze_history. rewrite <- !app_assoc. eauto.
  - eexists [_]. cbn. unfold analyze_history. rewrite <- !app_assoc. eauto.
Qed.

Lemma assessment_incomplete_invalid (v : json) :
  assessment_incomplete v -> IssueAssessment_validate v = None.
Proof.
  intros [Hno|(m & f & -> & Hf & Hnone)].
  - destruct v; try done. by destruct (Hno m).
  - unfold IssueAssessment_validate. cbn in Hf.
    repeat (apply elem_of_cons in Hf as [->|Hf]);
      [| | |by apply elem_of_nil in Hf]; rewrite Hnone.
    + done.
    + by destruct (m !! "detected" ≫= to_bool).
    + destruct (m !! "detected" ≫= to_bool); [|done]. cbn.
      by destruct (m !! "confidence" ≫= to_float).
Qed.

Lemma analysis_incomplete_invalid (d : json) :
  analysis_incomplete d -> SatelliteAnalysis_validate d = None.
Proof.
  intros [Hno|(m & k & -> & Hk & Hbad)].
  - destruct d; try done. by destruct (Hno m).
  - assert (m !! k ≫= IssueAssessment_validate = None) as Hnone.
    { destruct Hbad as [->|(v & -> & Hv)]; [done|].
      by apply assessment_incomplete_invalid. }
    unfold SatelliteAnalysis_validate. cbn in Hk.
    repeat (apply elem_of_cons in Hk as [->|Hk]);
      [| | | |by apply elem_of_nil in Hk]; rewrite Hnone.
    + done.
    + by destruct (m !! "has_clouds" ≫= IssueAssessment_validate).
    + destruct (m !! "has_clouds" ≫= IssueAssessment_validate); [|done]. cbn.
      by destruct (m !! "has_snow" ≫= IssueAssessment_validate).
    + destruct (m !! "has_clouds" ≫= IssueAssessment_validate); [|done]. cbn.
      destruct (m !! "has_snow" ≫= IssueAssessment_validate); [|done]. cbn.
      by destruct (m !! "has_color_issues" ≫= IssueAssessment_validate).
Qed.

(** X10. A reply of the model that decodes to JSON but is not a whole
    verdict (it is not an object, or one of the four categories is missing,
    or a category is not an object or lacks one of its three fields) is
    answered with the plain 500 of the server, under any conversion table:
    the [except] branch does not run and no [detail] is sent. *)
Theorem analyze_incomplete_is_500 (agent : SatelliteInspector)
    (request : AnalysisRequest) (raw : raw_request) (w : world)
    (s : string) (d : json) :
  model_reply E agent request w = Ok s ->
  json_loads E s = Ok d ->
  analysis_incomplete d ->
  serve E agent (POST_analyze request) raw w
    = ({| status := 500; body := BText "Internal Server Error" |},
       world_called E agent request w).
Proof.
  intros Hreply Hjson Hbad. rewrite serve_analyze, Hreply, Hjson.
  by rewrite (analysis_incomplete_invalid d Hbad).
Qed.


(** ** Start-up *)

Lemma rstrip_ends_clean (s : string) : ends_clean (rstrip s) = true.
Proof.
  induction s as [|c s IH]; [done|]. cbn [rstrip].
  destruct (rstrip s) as [|k kept].
  - destruct (is_space c) eqn:Hc; [done|]. cbn. by rewrite Hc.
  - exact IH.
Qed.

Lemma lstrip_starts_clean (s : string) : starts_clean (lstrip s) = true.
Proof.
  induction s as [|c s IH]; [done|]. cbn [lstrip].
  destruct (is_space c) eqn:Hc; [done|]. cbn. by rewrite Hc.
Qed.

Lemma rstrip_starts_clean (s : string) :
  starts_clean s = true -> starts_clean (rstrip s) = true.
Proof.
  destruct s as [|c s]; [done|]. cbn [rstrip starts_clean]. intros Hc.
  destruct (rstrip s); [|done].
  destruct (is_space c) eqn:Hs; [done|]. cbn. by rewrite Hs.
Qed.

(** X13. When the variable is unset, or set to the empty text, the notice
    is printed, [gcloud] is asked once, and the project id is its answer
    without the white space around it: it neither starts nor ends with a
    blank, a tab or a line break. *)
Theorem project_id_from_gcloud (H : host) (notice : string) (w : world) :
  environ H !! "GOOGLE_CLOUD_PROJECT" = None \/
  environ H !! "GOOGLE_CLOUD_PROJECT" = Some "" ->
  exists p,
    resolve_project_id H notice w
      = (Ok p, {| fs := fs w;
                  log := (log w ++ [ EvPrint notice;
                                     EvPopen "gcloud config get-value project" ])%list |}) /\
    p = strip (popen_read H "gcloud config get-value project") /\
    starts_clean p = true /\ ends_clean p = true.
Proof.
  intros Henv. eexists. split; [|split; [reflexivity|]].
  - unfold resolve_project_id, os_popen_read, bind, print, emit, ret.
    destruct Henv as [->| ->]; cbn [fs log]; by rewrite <- app_assoc.
  - unfold strip. split.
    + apply rstrip_starts_clean, lstrip_starts_clean.
    + apply rstrip_ends_clean.
Qed.

Lemma resolve_project_id_total (H : host) (notice : string) (w : world) :
  exists p pre,
    resolve_project_id H notice w
      = (Ok p, {| fs := fs w; log := (log w ++ pre)%list |}) /\
    (pre = [] \/
     pre = [EvPrint notice; EvPopen "gcloud config get-value project"]).
Proof.
  unfold resolve_project_id, os_popen_read, bind, print, emit, ret.
  destruct (environ H !! "GOOGLE_CLOUD_PROJECT") as [[|c rest]|];
    cbn [fs log].
  - eexists _, [_; _]. rewrite <- app_assoc. split; [reflexivity|eauto].
  - eexists _, []. rewrite app_nil_r. destruct w. split; [reflexivity|eauto].
  - eexists _, [_; _]. rewrite <- app_assoc. split; [reflexivity|eauto].
Qed.

(** [__init__], outcome by outcome. *)
Lemma SatelliteInspector_new_cases (H : host) (p loc : string) (w : world) :
  SatelliteInspector_new H p loc w =
    match vertexai_init H p loc with
    | Some e =>
        (Raise e, {| fs := fs w; log := (log w ++ [EvVertexInit p loc])%list |})
    | None =>
        let w' :=
          {| fs := fs w;
             log := (log w ++ [ EvVertexInit p loc;
                                EvGenerativeModel "gemini-2.5-flash" ])%list |} in
        match GenerativeModel H "gemini-2.5-flash" with
        | Some e => (Raise e, w')
        | None => (Ok (SatelliteInspector_init p loc), w')
        end
    end.
Proof.
  unfold SatelliteInspector_new, sdk_call, bind, emit, raise, ret.
  cbn [fs log].
  destruct (vertexai_init H p loc); [reflexivity|].
  cbn [fs log]. rewrite <- app_assoc.
  by destruct (GenerativeModel H "gemini-2.5-flash").
Qed.

(** X14. Importing [main.py] builds the module-level agent exactly when
    neither [vertexai.init] nor [GenerativeModel] raises for the resolved
    project id; otherwise the import ends with the exception of the first
    of the two that raises.  When the agent is built it is the one of
    [__init__] for that project id in [us-central1], and every request it
    sends for an [AnalysisRequest] opens with the fixed instruction and
    carries the schema of [SatelliteAnalysis]. *)
Theorem startup_agent_policy (H : host) (w : world) :
  exists p w1,
    resolve_project_id H
      "GOOGLE_CLOUD_PROJECT not set, attempting to find from gcloud config" w
      = (Ok p, w1) /\
    match startup H w with
    | (Ok agent, w') =>
        vertexai_init H p "us-central1" = None /\
        GenerativeModel H "gemini-2.5-flash" = None /\
        agent = SatelliteInspector_init p "us-central1" /\
        fs w' = fs w /\
        forall request, under_policy E (analyze_request E agent request)
    | (Raise e, w') =>
        vertexai_init H p "us-central1" = Some e \/
        (vertexai_init H p "us-central1" = None /\
         GenerativeModel H "gemini-2.5-flash" = Some e)
    end.
Proof.
  unfold startup, bind.
  destruct (resolve_project_id_total H
    "GOOGLE_CLOUD_PROJECT not set, attempting to find from gcloud config" w)
    as (p & pre & -> & _).
  exists p. eexists. split; [reflexivity|].
  rewrite SatelliteInspector_new_cases.
  destruct (vertexai_init H p "us-central1") as [e|]; [by left|].
  destruct (GenerativeModel H "gemini-2.5-flash") as [e|]; cbn; [by right|].
  repeat split; try reflexivity.
  all: by simplify_map_eq.
Qed.

(** The [try] block of the script leaves the file system as it is. *)
Lemma script_try_fs (H : host) (p : string) (w : world) :
  fs (script_try E H p w).2 = fs w.
Proof.
  unfold script_try. unfold bind at 1. rewrite SatelliteInspector_new_cases.
  destruct (vertexai_init H p "us-central1") as [e|]; [reflexivity|].
  destruct (GenerativeModel H "gemini-2.5-flash") as [e|]; cbn zeta;
    [reflexivity|].
  unfold analyze_image, open_read, _generate, generate_content,
    os_path_exists, print, emit, raise, ret, bind.
  cbn [fs log].
  destruct (fs w !! IMAGE_PATH) as [[data|]|] eqn:Hfs.
  - repeat first [ rewrite bool_decide_eq_true_2 by eauto
                 | rewrite Hfs | progress cbn ].
    match goal with
    | |- context [gemini E ?h ?r] => by destruct (gemini E h r) as [s|e]
    end.
  - repeat first [ rewrite bool_decide_eq_true_2 by eauto
                 | rewrite Hfs | progress cbn ].
    reflexivity.
  - rewrite bool_decide_eq_false_2 by (by intros [? ?]). reflexivity.
Qed.

(** X15. Run as a script, the module never ends with an exception.  Once
    the project id is resolved, either the [try] block runs to its end, or
    it raises, in [__init__], in reading the image or in the call of the
    model, and then the script ends by printing one line with the text of
    that exception: after ["Error: "] for a [FileNotFoundError], after
    ["An unexpected error occurred: "] for any other.  The file system is
    left as it is. *)
Theorem main_script_never_raises (H : host) (w : world) :
  exists p w1 w2,
    resolve_project_id H
      "GOOGLE_CLOUD_PROJECT env var not set, attempting to find from gcloud config..." w
      = (Ok p, w1) /\
    fs w2 = fs w /\
    ((script_try E H p w1 = (Ok tt, w2) /\
      main_script E H w = (Ok tt, w2))
     \/
     (exists e,
        script_try E H p w1 = (Raise e, w2) /\
        main_script E H w
          = (Ok tt,
             {| fs := fs w2;
                log := (log w2
                          ++ [EvPrint ((if is_FileNotFoundError e
                                        then "Error: "
                                        else "An unexpected error occurred: ")
                                         ++ str e)])%list |}))).
Proof.
  unfold main_script, bind.
  destruct (resolve_project_id_total H
    "GOOGLE_CLOUD_PROJECT env var not set, attempting to find from gcloud config..." w)
    as (p & pre & -> & _).
  set (w1 := {| fs := fs w; log := (log w ++ pre)%list |}).
  pose proof (script_try_fs H p w1) as Hfs.
  unfold try_except.
  destruct (script_try E H p w1) as [[[]|e] w2] eqn:Htry; cbn in Hfs.
  - exists p, w1, w2. split; [reflexivity|]. split; [exact Hfs|]. by left.
  - exists p, w1, w2. split; [reflexivity|]. split; [exact Hfs|]. right.
    exists e. split; [exact Htry|].
    unfold script_except, print, emit. by destruct (is_FileNotFoundError e).
Qed.

(** X16. When [__init__] returns and the test image is not there, the
    script calls nothing more: after the notice and the question to
    [gcloud], if the project id had to be looked up, and the two calls of
    [__init__], it prints that it analyzes the image and then where to
    place one; nothing is read and the model is not called. *)
Theorem main_script_without_image (H : host) (w : world) :
  fs w !! IMAGE_PATH = None ->
  (forall p, vertexai_init H p "us-central1" = None) ->
  GenerativeModel H "gemini-2.5-flash" = None ->
  exists p pre,
    (pre = [] \/
     pre = [ EvPrint "GOOGLE_CLOUD_PROJECT env var not set, attempting to find from gcloud config...";
             EvPopen "gcloud config get-value project" ]) /\
    main_script E H w
      = (Ok tt,
         {| fs := fs w;
            log := (log w ++ pre
                      ++ [ EvVertexInit p "us-central1";
                           EvGenerativeModel "gemini-2.5-flash";
                           EvPrint "Analyzing test_satellite.jpg...";
                           EvPrint "Please place a test image at 'test_satellite.jpg' to run this script." ])%list |}).
Proof.
  intros Hmiss Hinit Hmodel. unfold main_script, bind at 1.
  destruct (resolve_project_id_total H
    "GOOGLE_CLOUD_PROJECT env var not set, attempting to find from gcloud config..." w)
    as (p & pre & -> & Hpre).
  exists p, pre. split; [done|].
  unfold try_except, script_try. unfold bind at 1.
  rewrite SatelliteInspector_new_cases, Hinit, Hmodel. cbn zeta.
  unfold bind, print, emit, os_path_exists, ret. cbn [fs log].
  rewrite Hmiss. rewrite bool_decide_eq_false_2 by (by intros [? ?]). cbn.
  by rewrite <- !app_assoc.
Qed.

(** X18. When [vertexai.init] raises, the script does nothing more than
    print the text of the exception: after the notice and the question to
    [gcloud], if the project id had to be looked up, the model class is
    not built, the image is not looked for, and the model is not called. *)
Theorem main_script_init_fails (H : host) (w : world) (e : exn) :
  (forall p, vertexai_init H p "us-central1" = Some e) ->
  exists p pre,
    (pre = [] \/
     pre = [ EvPrint "GOOGLE_CLOUD_PROJECT env var not set, attempting to find from gcloud config...";
             EvPopen "gcloud config get-value project" ]) /\
    main_script E H w
      = (Ok tt,
         {| fs := fs w;
            log := (log w ++ pre
                      ++ [ EvVertexInit p "us-central1";
                           EvPrint ((if is_FileNotFoundError e
                                     then "Error: "
                                     else "An unexpected error occurred: ")
                                      ++ str e) ])%list |}).
Proof.
  intros Hinit. unfold main_script, bind at 1.
  destruct (resolve_project_id_total H
    "GOOGLE_CLOUD_PROJECT env var not set, attempting to find from gcloud config..." w)
    as (p & pre & -> & Hpre).
  exists p, pre. split; [done|].
  unfold try_except, script_try. unfold bind at 1.
  rewrite SatelliteInspector_new_cases, Hinit.
  unfold script_except, print, emit. cbn [fs log].
  destruct (is_FileNotFoundError e); cbn [fs log];
    by rewrite <- !app_assoc.
Qed.
End InspectorMore.

(** * More runs *)

Section UploadMoreRuns.
Import UploadApp.
Local Open Scope list_scope.

Lemma upload_200_lists_all_files_witness :
  exists ujs,
    length ujs = 1%nat /\
    (upload_route env_ok [jpeg "a.jpg"] w0).1 =
      ok 200 (Html {| results_heading := true;
                      result_divs :=
                        render_div <$> zip_with (entry_of env_ok) [jpeg "a.jpg"] ujs |}) /\
    length (render_div <$> zip_with (entry_of env_ok) [jpeg "a.jpg"] ujs) = 1%nat.
Proof.
  apply (upload_200_lists_all_files env_ok [jpeg "a.jpg"] w0).
  vm_compute. reflexivity.
Defined.

Lemma upload_post_after_store_witness :
  exists pre' u file,
    file ∈ [jpeg "a.jpg"] /\
    take 3 (file_events "uuid-0" (jpeg "a.jpg"))
      = pre' ++ [ EvUuid4 u;
                  EvUploadFromFile (blob_name_of u file) (stream file)
                    (content_type file);
                  EvMakePublic (blob_name_of u file) ] /\
    CLOUD_RUN_URL = CLOUD_RUN_URL /\
    JObj {[ "gcs_uri" := JStr (gcs_uri_of "uuid-0" (jpeg "a.jpg")) ]}
      = JObj {[ "gcs_uri" :=
                  JStr ("gs://" +:+ GCS_BUCKET_NAME +:+ "/"
                          +:+ blob_name_of u file) ]}.
Proof.
  apply (upload_post_after_store env_ok [jpeg "a.jpg"] w0
           (take 3 (file_events "uuid-0" (jpeg "a.jpg"))) []).
  vm_compute. reflexivity.
Defined.

Lemma blob_name_of_inj_witness :
  "uuid-0" = "uuid-0" /\ filename (jpeg "a.jpg") = filename (jpeg "a.jpg").
Proof.
  apply (blob_name_of_inj "uuid-0" "uuid-0" (jpeg "a.jpg") (jpeg "a.jpg"));
    reflexivity.
Defined.

Lemma posted_body_is_request_witness :
  exists u file,
    file ∈ [jpeg "a.jpg"] /\
    Inspector.AnalysisRequest_validate (C:=Inspector.strict_conversion)
      (JObj {[ "gcs_uri" := JStr (gcs_uri_of "uuid-0" (jpeg "a.jpg")) ]})
      = Some {| Inspector.gcs_uri := gcs_uri_of u file |}.
Proof.
  apply (posted_body_is_request env_ok (C:=Inspector.strict_conversion)
           [jpeg "a.jpg"] w0
           (take 3 (file_events "uuid-0" (jpeg "a.jpg"))) [] CLOUD_RUN_URL).
  vm_compute. reflexivity.
Defined.

Lemma rendered_page_markup_free_witness :
  markup_free (escape "<img src='x'>") = true /\
  markup_free (escape "a & b") = true.
Proof.
  apply (rendered_page_markup_free
           (Some [ {| image_url := "<img src='x'>"; analysis := "a & b" |} ])
           (escape "<img src='x'>", escape "a & b")).
  apply list_elem_of_singleton. reflexivity.
Defined.
End UploadMoreRuns.

Section InspectorMoreRuns.
Import Inspector.

Lemma partial_verdict_incomplete : analysis_incomplete partial_verdict.
Proof.
  right. eexists _, "has_snow". split; [reflexivity|].
  split; [cbn; set_solver|]. left. by simplify_map_eq.
Qed.

Lemma analyze_incomplete_is_500_witness :
  serve (C:=strict_conversion) (env_replying (Ok "PARTIAL")) agent0
    (POST_analyze request0) raw0 w0
  = ({| status := 500; body := BText "Internal Server Error" |},
     world_called (env_replying (Ok "PARTIAL")) agent0 request0 w0).
Proof.
  apply (analyze_incomplete_is_500 (C:=strict_conversion)
           (env_replying (Ok "PARTIAL")) agent0 request0 raw0 w0
           "PARTIAL" partial_verdict).
  - reflexivity.
  - reflexivity.
  - exact partial_verdict_incomplete.
Defined.


Lemma analyze_image_directory_witness :
  analyze_image (env_replying (Ok "GOOD")) agent0 "tiles" w1
  = (Raise (Exception "IsADirectoryError" "[Errno 21] Is a directory: 'tiles'"),
     w1).
Proof.
  apply (analyze_image_directory (env_replying (Ok "GOOD")) agent0 "tiles" w1).
  vm_compute. reflexivity.
Defined.

Lemma project_id_from_gcloud_witness :
  exists p,
    resolve_project_id host_laptop "notice" w0
      = (Ok p, {| fs := fs w0;
                  log := (log w0 ++ [ EvPrint "notice";
                                      EvPopen "gcloud config get-value project" ])%list |}) /\
    p = strip (popen_read host_laptop "gcloud config get-value project") /\
    starts_clean p = true /\ ends_clean p = true.
Proof.
  apply (project_id_from_gcloud host_laptop "notice" w0).
  right. vm_compute. reflexivity.
Defined.

Lemma main_script_without_image_witness :
  exists p pre,
    (pre = [] \/
     pre = [ EvPrint "GOOGLE_CLOUD_PROJECT env var not set, attempting to find from gcloud config...";
             EvPopen "gcloud config get-value project" ]) /\
    main_script (env_replying (Ok "GOOD")) host_laptop w0
      = (Ok tt,
         {| fs := fs w0;
            log := (log w0 ++ pre
                      ++ [ EvVertexInit p "us-central1";
                           EvGenerativeModel "gemini-2.5-flash";
                           EvPrint "Analyzing test_satellite.jpg...";
                           EvPrint "Please place a test image at 'test_satellite.jpg' to run this script." ])%list |}).
Proof.
  apply (main_script_without_image (env_replying (Ok "GOOD")) host_laptop w0).
  - vm_compute. reflexivity.
  - intros p. reflexivity.
  - reflexivity.
Defined.

Lemma main_script_init_fails_witness :
  exists p pre,
    (pre = [] \/
     pre = [ EvPrint "GOOGLE_CLOUD_PROJECT env var not set, attempting to find from gcloud config...";
             EvPopen "gcloud config get-value project" ]) /\
    main_script (env_replying (Ok "GOOD")) host_no_credentials w2
      = (Ok tt,
         {| fs := fs w2;
            log := (log w2 ++ pre
                      ++ [ EvVertexInit p "us-central1";
                           EvPrint ((if is_FileNotFoundError no_credentials
                                     then "Error: "
                                     else "An unexpected error occurred: ")
                                      ++ str no_credentials) ])%list |}).
Proof.
  apply (main_script_init_fails (env_replying (Ok "GOOD"))
           host_no_credentials w2 no_credentials).
  intros p. reflexivity.
Defined.
End InspectorMoreRuns.
